(** * query_db_direct: schema analysis, query suggestion and table rendering

    A shallow embedding of the decision logic of [DirectDBQuery]
    (src/query_db_direct.py): [_analyze_table_schema],
    [_generate_table_queries], [_generate_database_insights],
    [analyze_database_schema] and [_format_table_results], and of
    [execute_raw_sql] and [execute_multi_query] over an abstract driver
    (connecting, running one statement, commit and rollback are
    parameters; JSON serialization is not modelled).

    Python [str] values are modelled as [string] (sequences of 8-bit
    characters); [lower]/[upper] are the ASCII case mappings, and [len]
    counts characters of that representation.  Python dictionaries are
    modelled as association lists in insertion order, which is the order
    the source iterates them in. *)

From Stdlib Require Import List String Ascii Bool Arith ZArith Lia.
From Stdlib Require Import Numbers.DecimalString.
From Stdlib Require Import Sorting.Sorted Sorting.Permutation.
Import ListNotations.
Open Scope string_scope.
Open Scope list_scope.

(** String concatenation, kept apart from list append. *)
Notation "a +++ b" := (String.append a b) (at level 60, right associativity).

(** ** Python string primitives *)

Module PyStr.

Definition nl : string := String "010"%char EmptyString.

Definition lower_ascii (c : ascii) : ascii :=
  let n := nat_of_ascii c in
  if ((65 <=? n) && (n <=? 90))%nat then ascii_of_nat (n + 32) else c.

Definition upper_ascii (c : ascii) : ascii :=
  let n := nat_of_ascii c in
  if ((97 <=? n) && (n <=? 122))%nat then ascii_of_nat (n - 32) else c.

Fixpoint map_string (f : ascii -> ascii) (s : string) : string :=
  match s with
  | EmptyString => EmptyString
  | String c s' => String (f c) (map_string f s')
  end.

(** [s.lower()] and [s.upper()] *)
Definition lower (s : string) : string := map_string lower_ascii s.
Definition upper (s : string) : string := map_string upper_ascii s.

(** [s.startswith(p)] *)
Definition startswith (s p : string) : bool := String.prefix p s.

(** [sub in s] *)
Fixpoint contains (sub s : string) : bool :=
  String.prefix sub s ||
  match s with
  | EmptyString => false
  | String _ s' => contains sub s'
  end.

Fixpoint rev_string (s : string) : string :=
  match s with
  | EmptyString => EmptyString
  | String c s' => rev_string s' +++ String c EmptyString
  end.

(** [s.endswith(p)] *)
Definition endswith (s p : string) : bool :=
  String.prefix (rev_string p) (rev_string s).

(** [c * n] for a one-character string [c] *)
Fixpoint repeat_char (c : ascii) (n : nat) : string :=
  match n with
  | O => EmptyString
  | S n' => String c (repeat_char c n')
  end.

(** [s.ljust(w)]: pad with spaces on the right up to [w]; a longer
    string is returned unchanged. *)
Definition ljust (s : string) (w : nat) : string :=
  s +++ repeat_char " "%char (w - String.length s).

(** [s[:n]] for [n >= 0] *)
Fixpoint take (n : nat) (s : string) : string :=
  match n, s with
  | O, _ => EmptyString
  | _, EmptyString => EmptyString
  | S n', String c s' => String c (take n' s')
  end.

(** [sep.join(l)] *)
Fixpoint join (sep : string) (l : list string) : string :=
  match l with
  | [] => EmptyString
  | [x] => x
  | x :: rest => x +++ sep +++ join sep rest
  end.

(** [str(n)] / [format(n)] for a non-negative machine-independent int *)
Definition str_of_nat (n : nat) : string :=
  NilZero.string_of_uint (Nat.to_uint n).

(** Grouping of a reversed digit sequence in threes, for [{:,}]. *)
Fixpoint group3 (rev_digits : list ascii) : list ascii :=
  match rev_digits with
  | a :: rest1 =>
      match rest1 with
      | b :: rest2 =>
          match rest2 with
          | c :: rest3 =>
              match rest3 with
              | [] => [a; b; c]
              | _ :: _ => a :: b :: c :: ","%char :: group3 rest3
              end
          | [] => [a; b]
          end
      | [] => [a]
      end
  | [] => []
  end.

(** [format(z, ',')]: decimal with thousands separators *)
Definition format_thousands (z : Z) : string :=
  let digits := list_ascii_of_string
                  (NilZero.string_of_uint (N.to_uint (Z.to_N (Z.abs z)))) in
  let grouped := string_of_list_ascii (rev (group3 (rev digits))) in
  if (z <? 0)%Z then "-" +++ grouped else grouped.

(** [x in l] for a list of strings *)
Definition mem (x : string) (l : list string) : bool :=
  existsb (String.eqb x) l.

(** [any(k in s for k in keywords)] *)
Definition any_in (keywords : list string) (s : string) : bool :=
  existsb (fun keyword => contains keyword s) keywords.

End PyStr.

(** ** Python dictionaries with string keys, in insertion order *)

Module PyDict.

Definition dict (V : Type) : Type := list (string * V).

(** [d[k] = v]: overwrite in place when the key is present, append
    otherwise. *)
Fixpoint set {V} (k : string) (v : V) (d : dict V) : dict V :=
  match d with
  | [] => [(k, v)]
  | (k', v') :: d' =>
      if String.eqb k k' then (k', v) :: d' else (k', v') :: set k v d'
  end.

(** [d.get(k)] *)
Fixpoint get {V} (k : string) (d : dict V) : option V :=
  match d with
  | [] => None
  | (k', v') :: d' => if String.eqb k k' then Some v' else get k d'
  end.

Definition keys {V} (d : dict V) : list string := map fst d.
Definition values {V} (d : dict V) : list V := map snd d.

End PyDict.

Import PyStr PyDict.

(** ** Data model *)

(** One entry of [schema_info['columns']] as built by [get_table_schema]. *)
Record Column := mkColumn {
  col_name : string;
  col_type : string;
  not_null : bool;
  primary_key : bool
}.

(** The [schema_info] dictionary returned by a successful
    [get_table_schema]. *)
Record Schema := mkSchema {
  schema_table : string;
  schema_columns : list Column;
  schema_row_count : Z;
  schema_indexes : list string
}.

(** The per-table [analysis] dictionary of [_analyze_table_schema]. *)
Record TableAnalysis := mkTableAnalysis {
  row_count : Z;
  column_types : dict string;
  date_columns : list string;
  numeric_columns : list string;
  text_columns : list string;
  primary_keys : list string;
  has_timestamps : bool;
  likely_relationships : list string
}.

(** One suggested query. *)
Record Query := mkQuery {
  name : string;
  description : string;
  sql : string
}.

(** ** [_analyze_table_schema] *)

Definition temporal_keywords : list string :=
  ["created"; "updated"; "modified"; "time"; "date"].

Definition disqualifying_keywords : list string :=
  ["score"; "label"; "amount"; "value"].

(** The condition of the timestamp-pattern [if], on the column name. *)
Definition timestamp_pattern (col_name : string) : bool :=
  any_in temporal_keywords (lower col_name) &&
  negb (any_in disqualifying_keywords (lower col_name)).

Definition is_numeric_type (col_type : string) : bool :=
  contains "INT" col_type || contains "REAL" col_type ||
  contains "FLOAT" col_type || contains "NUMERIC" col_type.

Definition is_text_type (col_type : string) : bool :=
  contains "TEXT" col_type || contains "CHAR" col_type ||
  contains "VARCHAR" col_type.

Definition is_date_type (col_type : string) : bool :=
  contains "DATE" col_type || contains "TIME" col_type.

(** The last [elif] is reached: the type is neither numeric nor text, and
    mentions [DATE] or [TIME]. *)
Definition typed_date (col_type : string) : bool :=
  negb (is_numeric_type col_type) && negb (is_text_type col_type)
  && is_date_type col_type.

(** The type-based [if / elif / elif] of the loop body, as the three
    category lists after it. *)
Definition categorize (cname ctype : string) (a : TableAnalysis)
  : list string * list string * list string :=
  if is_numeric_type ctype then
    (numeric_columns a ++ [cname], text_columns a, date_columns a)
  else if is_text_type ctype then
    (numeric_columns a, text_columns a ++ [cname], date_columns a)
  else if is_date_type ctype then
    (numeric_columns a, text_columns a, date_columns a ++ [cname])
  else
    (numeric_columns a, text_columns a, date_columns a).

(** One iteration of [for col in schema.get('columns', [])]. *)
Definition analyze_column (a : TableAnalysis) (col : Column) : TableAnalysis :=
  let cname := col_name col in
  let ctype := upper (col_type col) in
  let '(numeric, text, dates) := categorize cname ctype a in
  let fires := timestamp_pattern cname in
  {| row_count := row_count a;
     column_types := set cname ctype (column_types a);
     date_columns :=
       if fires then (if mem cname dates then dates else dates ++ [cname])
       else dates;
     numeric_columns := numeric;
     text_columns := text;
     primary_keys :=
       if primary_key col then primary_keys a ++ [cname] else primary_keys a;
     has_timestamps := if fires then true else has_timestamps a;
     likely_relationships := likely_relationships a |}.

Definition initial_analysis (schema : Schema) : TableAnalysis :=
  {| row_count := schema_row_count schema;
     column_types := [];
     date_columns := [];
     numeric_columns := [];
     text_columns := [];
     primary_keys := [];
     has_timestamps := false;
     likely_relationships := [] |}.

Definition _analyze_table_schema (table_name : string) (schema : Schema)
  : TableAnalysis :=
  fold_left analyze_column (schema_columns schema) (initial_analysis schema).

(** ** [_generate_table_queries] *)

Definition sample_query (table_name : string) : Query :=
  {| name := "sample_" +++ table_name;
     description := "Sample data from " +++ table_name;
     sql := "SELECT * FROM " +++ table_name +++ " LIMIT 5" |}.

Definition count_query (table_name : string) : Query :=
  {| name := "count_" +++ table_name;
     description := "Total rows in " +++ table_name;
     sql := "SELECT COUNT(*) as total_rows FROM " +++ table_name |}.

Definition recent_query (table_name date_col : string) : Query :=
  {| name := "recent_" +++ table_name;
     description := "Recent records from " +++ table_name;
     sql := "SELECT * FROM " +++ table_name +++ " ORDER BY " +++ date_col
            +++ " DESC LIMIT 10" |}.

Definition date_range_query (table_name date_col : string) : Query :=
  {| name := "date_range_" +++ table_name;
     description := "Date range in " +++ table_name;
     sql := "SELECT MIN(" +++ date_col +++ ") as earliest, MAX(" +++ date_col
            +++ ") as latest FROM " +++ table_name |}.

Definition stats_query (table_name num_col : string) : Query :=
  {| name := "stats_" +++ table_name +++ "_" +++ num_col;
     description := "Statistics for " +++ num_col +++ " in " +++ table_name;
     sql := "SELECT AVG(" +++ num_col +++ ") as avg_" +++ num_col
            +++ ", MIN(" +++ num_col +++ ") as min_" +++ num_col
            +++ ", MAX(" +++ num_col +++ ") as max_" +++ num_col
            +++ " FROM " +++ table_name |}.

Definition popular_query (table_name text_col : string) : Query :=
  {| name := "popular_" +++ text_col +++ "_" +++ table_name;
     description := "Most common values in " +++ text_col;
     sql := "SELECT " +++ text_col +++ ", COUNT(*) as frequency FROM "
            +++ table_name +++ " GROUP BY " +++ text_col
            +++ " ORDER BY frequency DESC LIMIT 10" |}.

(** ['id' not in num_col.lower()] *)
Definition not_id_column (num_col : string) : bool :=
  negb (contains "id" (lower num_col)).

Definition popular_keywords : list string :=
  ["title"; "name"; "description"; "summary"].

(** The four blocks of the function, in the order they append. *)
Definition basic_queries (table_name : string) (a : TableAnalysis) : list Query :=
  if (row_count a >? 0)%Z
  then [sample_query table_name; count_query table_name]
  else [].

Definition date_queries (table_name : string) (a : TableAnalysis) : list Query :=
  match date_columns a with
  | [] => []
  | date_col :: _ =>
      [recent_query table_name date_col; date_range_query table_name date_col]
  end.

Definition numeric_queries (table_name : string) (a : TableAnalysis) : list Query :=
  flat_map (fun num_col =>
              if not_id_column num_col
              then [stats_query table_name num_col] else [])
           (firstn 3 (numeric_columns a)).

Definition text_queries (table_name : string) (a : TableAnalysis) : list Query :=
  flat_map (fun text_col =>
              if any_in popular_keywords (lower text_col)
              then [popular_query table_name text_col] else [])
           (firstn 2 (text_columns a)).

Definition _generate_table_queries (table_name : string)
    (table_analysis : TableAnalysis) : list Query :=
  basic_queries table_name table_analysis
  ++ date_queries table_name table_analysis
  ++ numeric_queries table_name table_analysis
  ++ text_queries table_name table_analysis.

(** ** [_generate_database_insights] *)

(** A candidate relationship [table.column -> other_table].  The source
    appends the formatted string at once; the edge is kept here so that
    its three parts can be spoken about, and [format_edge] is the
    f-string. *)
Record RelationshipEdge := mkEdge {
  from_table : string;
  from_column : string;
  to_table : string
}.

Definition format_edge (e : RelationshipEdge) : string :=
  from_table e +++ "." +++ from_column e +++ " -> " +++ to_table e.

(** The name test of the foreign-key pattern. *)
Definition fk_pattern (col_name other_table : string) : bool :=
  startswith (lower col_name) (lower other_table)
  || endswith (lower col_name) (lower other_table)
  || contains (lower other_table) (lower col_name).

(** The triple loop over tables, their columns and the other tables. *)
Definition relationship_edges (tables_analysis : dict TableAnalysis)
  : list RelationshipEdge :=
  let table_names := keys tables_analysis in
  flat_map (fun '(table_name, analysis) =>
    flat_map (fun col_name =>
      flat_map (fun other_table =>
        if negb (String.eqb other_table table_name)
           && fk_pattern col_name other_table
        then [mkEdge table_name col_name other_table]
        else [])
      table_names)
    (keys (column_types analysis)))
  tables_analysis.

Definition potential_relationships (tables_analysis : dict TableAnalysis)
  : list string :=
  map format_edge (relationship_edges tables_analysis).

(** [sorted(l, key=lambda x: x[1], reverse=True)]: stable, largest first. *)
Fixpoint insert_desc (x : string * Z) (l : list (string * Z))
  : list (string * Z) :=
  match l with
  | [] => [x]
  | y :: l' =>
      if (snd y <=? snd x)%Z then x :: y :: l' else y :: insert_desc x l'
  end.

Definition sorted_desc (l : list (string * Z)) : list (string * Z) :=
  fold_right insert_desc [] l.

Definition summary_line (total_tables : nat) (total_rows : Z) : string :=
  "Database contains " +++ str_of_nat total_tables +++ " tables with "
  +++ format_thousands total_rows +++ " total rows".

(** [sum(t.get('row_count', 0) for t in tables_analysis.values())] *)
Definition sum_row_counts (tables_analysis : dict TableAnalysis) : Z :=
  fold_left (fun acc t => (acc + row_count t)%Z) (values tables_analysis) 0%Z.

Definition _generate_database_insights (tables_analysis : dict TableAnalysis)
  : list string :=
  let total_tables := List.length tables_analysis in
  let total_rows := sum_row_counts tables_analysis in
  let largest_tables :=
    firstn 3 (sorted_desc
                (map (fun '(name, analysis) => (name, row_count analysis))
                     tables_analysis)) in
  let largest_line :=
    match largest_tables with
    | (_, count0) :: _ =>
        if (count0 >? 0)%Z
        then ["Largest tables: " +++
              join ", "
                (map (fun '(name, count) =>
                        name +++ " (" +++ format_thousands count +++ " rows)")
                     (filter (fun '(_, count) => (count >? 0)%Z) largest_tables))]
        else []
    | [] => []
    end in
  let potential := potential_relationships tables_analysis in
  let relationships_line :=
    match potential with
    | [] => []
    | _ :: _ => ["Potential relationships: " +++ join ", " (firstn 3 potential)]
    end in
  [summary_line total_tables total_rows] ++ largest_line ++ relationships_line.

(** ** [analyze_database_schema] *)

(** What [get_table_schema] returns: the schema dictionary, or the
    dictionary with the single key ['error']. *)
Inductive SchemaResult :=
| SchemaOk (schema : Schema)
| SchemaError (message : string).

Record Analysis := mkAnalysis {
  database_path : string;
  tables : dict TableAnalysis;
  suggested_queries : list Query;
  insights : list string
}.

Section Analyze.

(** The database behind [self]: its path, the result of
    [get_table_names()] and of [get_table_schema(table)]. *)
Variable db_path : string.
Variable get_table_names : list string.
Variable get_table_schema : string -> SchemaResult.

(** One iteration of [for table in tables], on the pair of
    [analysis['tables']] and [analysis['suggested_queries']]. *)
Definition analyze_table (acc : dict TableAnalysis * list Query)
    (table : string) : dict TableAnalysis * list Query :=
  match get_table_schema table with
  | SchemaError _ => acc
  | SchemaOk schema =>
      let table_analysis := _analyze_table_schema table schema in
      (set table table_analysis (fst acc),
       snd acc ++ _generate_table_queries table table_analysis)
  end.

Definition analyze_tables (table_list : list string)
  : dict TableAnalysis * list Query :=
  fold_left analyze_table table_list ([], []).

Definition analyze_database_schema : Analysis :=
  match get_table_names with
  | [] =>
      {| database_path := db_path; tables := [];
         suggested_queries := []; insights := [] |}
  | _ :: _ =>
      let '(tbls, queries) := analyze_tables get_table_names in
      {| database_path := db_path; tables := tbls;
         suggested_queries := queries;
         insights := _generate_database_insights tbls |}
  end.

(** What one table adds to [suggested_queries], for stating what the
    loop accumulates. *)
Definition table_queries (table : string) : list Query :=
  match get_table_schema table with
  | SchemaOk schema =>
      _generate_table_queries table (_analyze_table_schema table schema)
  | SchemaError _ => []
  end.

End Analyze.

(** ** [_format_table_results] *)

Section Render.

(** Cell values are whatever the driver returns; the renderer only
    applies [str] to them. *)
Variable value : Type.
Variable str : value -> string.

Definition Row : Type := dict value.

(** [str(row.get(col, ''))] *)
Definition cell (row : Row) (col : string) : string :=
  match get col row with
  | Some v => str v
  | None => ""
  end.

(** [max] of a generator of lengths (never empty where it is used). *)
Definition max_of (l : list nat) : nat := fold_right Nat.max 0 l.

Definition col_width (results : list Row) (col : string) : nat :=
  Nat.min
    (Nat.max (String.length col)
             (max_of (map (fun row => String.length (cell row col))
                          (firstn 20 results))))
    30.

Definition rule_line : string := nl +++ repeat_char "="%char 60 +++ nl.

Definition render_header (results : list Row) (columns : list string) : string :=
  join " | " (map (fun col => ljust col (col_width results col)) columns).

Definition render_cell (results : list Row) (row : Row) (col : string) : string :=
  ljust (take (col_width results col) (cell row col)) (col_width results col).

Definition render_row (results : list Row) (columns : list string)
    (row : Row) : string :=
  join " | " (map (render_cell results row) columns).

Definition rows_returned (results : list Row) : string :=
  nl +++ "Rows returned: " +++ str_of_nat (List.length results).

(** What one iteration of the loop appends after the optional rule. *)
Definition format_batch (results : list Row) : list string :=
  match results with
  | [] => ["No results returned"]
  | first :: _ =>
      let columns := keys first in
      let header := render_header results columns in
      [header; repeat_char "-"%char (String.length header)]
      ++ map (render_row results columns) results
      ++ [rows_returned results]
  end.

(** [for i, results in enumerate(all_results)], from index [i]. *)
Fixpoint format_batches (i : nat) (all_results : list (list Row))
  : list string :=
  match all_results with
  | [] => []
  | results :: rest =>
      (if (0 <? i)%nat then [rule_line] else [])
      ++ format_batch results
      ++ format_batches (S i) rest
  end.

Definition _format_table_results (all_results : list (list Row)) : string :=
  join nl (format_batches 0 all_results).

End Render.

Arguments cell {value} str row col.
Arguments col_width {value} str results col.
Arguments render_header {value} str results columns.
Arguments render_cell {value} str results row col.
Arguments render_row {value} str results columns row.
Arguments rows_returned {value} results.
Arguments format_batch {value} str results.
Arguments format_batches {value} str i all_results.
Arguments _format_table_results {value} str all_results.

(** ** Vocabulary for the statements about classification *)

(** The branch of the type-based [if / elif / elif] a column takes. *)
Definition numeric_col (col : Column) : bool :=
  is_numeric_type (upper (col_type col)).

Definition text_col (col : Column) : bool :=
  negb (is_numeric_type (upper (col_type col)))
  && is_text_type (upper (col_type col)).

Definition date_col (col : Column) : bool :=
  typed_date (upper (col_type col)).

(** The entry a column leaves in [column_types]. *)
Definition type_entry (col : Column) : string * string :=
  (col_name col, upper (col_type col)).

(** ** More Python string primitives: [split] and [strip] *)

(** [c.isspace()] on the characters below 128: tab, line feed, vertical
    tab, form feed, carriage return, the four separators 28..31 and the
    space. *)
Definition is_space (c : ascii) : bool :=
  let n := nat_of_ascii c in
  (((9 <=? n) && (n <=? 13)) || ((28 <=? n) && (n <=? 32)))%nat.

Fixpoint lstrip (s : string) : string :=
  match s with
  | EmptyString => EmptyString
  | String c s' => if is_space c then lstrip s' else s
  end.

Definition rstrip (s : string) : string :=
  rev_string (lstrip (rev_string s)).

(** [s.strip()] *)
Definition strip (s : string) : string := rstrip (lstrip s).

(** [s.split(sep)] for a one-character separator: always at least one
    piece. *)
Fixpoint split_on (sep : ascii) (s : string) : list string :=
  match s with
  | EmptyString => [EmptyString]
  | String c s' =>
      if Ascii.eqb c sep then EmptyString :: split_on sep s'
      else match split_on sep s' with
           | piece :: pieces => String c piece :: pieces
           | [] => [String c EmptyString]
           end
  end.

(** [[stmt.strip() for stmt in sql.split(';') if stmt.strip()]], the
    comprehension of [execute_raw_sql] and of the [--multi] option. *)
Definition split_statements (sql : string) : list string :=
  map strip
      (filter (fun stmt => negb (String.eqb (strip stmt) ""))
              (split_on ";"%char sql)).

(** The characters of a string, for saying that one does not occur. *)
Definition chars (s : string) : list ascii := list_ascii_of_string s.

(** ** [execute_raw_sql] and [execute_multi_query] *)

(** [output_format]: ['json'], ['table'], or any other string. *)
Inductive Format := FormatJson | FormatTable | FormatOther.

(** What [execute_raw_sql] returns: a string, the result lists
    themselves, or the string [json.dumps] makes of the result lists or
    of [{"error": ...}]; serialization itself is not modelled. *)
Inductive Output (value : Type) : Type :=
| Text (s : string)
| JsonOf (all_results : list (list (Row value)))
| JsonError (error_msg : string)
| Results (all_results : list (list (Row value))).

Arguments Text {value} s.
Arguments JsonOf {value} all_results.
Arguments JsonError {value} error_msg.
Arguments Results {value} all_results.

(** What [execute_multi_query] returns: the joined text, the string
    [json.dumps] makes of the collected outputs, or the [TypeError] of
    [join] on an output that is not a string. *)
Inductive MultiOutput (value : Type) : Type :=
| MultiText (s : string)
| MultiJson (all_outputs : list (Output value))
| MultiTypeError.

Arguments MultiText {value} s.
Arguments MultiJson {value} all_outputs.
Arguments MultiTypeError {value}.

Section RawSql.

Variable value : Type.
Variable str : value -> string.

(** The database file and what the driver does with it: [connect] tells
    the exception of [sqlite3.connect], if any; [execute] runs one
    statement and gives the rows as dictionaries or the text of the
    exception; [commit] and [rollback] are what leaving the [with] block
    does; [get_table_names] is the method of that name. *)
Variable DB : Type.
Variable connect : DB -> option string.
Variable execute : DB -> string -> DB * (list (Row value) + string).
Variable commit : DB -> DB.
Variable rollback : DB -> DB.
Variable get_table_names : DB -> list string.

(** [for stmt in statements], until a statement raises. *)
Fixpoint run_statements (db : DB) (statements : list string)
    (all_results : list (list (Row value)))
  : DB * (list (list (Row value)) + string) :=
  match statements with
  | [] => (db, inl all_results)
  | stmt :: rest =>
      match execute db stmt with
      | (db', inl results) => run_statements db' rest (all_results ++ [results])
      | (db', inr e) => (db', inr e)
      end
  end.

(** The [except] branch up to the choice of format. *)
Definition sql_error_message (db : DB) (e : string) : string :=
  let error_msg := "SQL Error: " +++ e in
  if contains "no such table" (lower e) then
    error_msg +++ nl +++ "Available tables: "
    +++ join ", " (get_table_names db)
  else if contains "no such column" (lower e) then
    error_msg +++ nl +++ "Tip: Use --schema <table> to see available columns"
  else error_msg.

Definition error_output (output_format : Format) (error_msg : string)
  : Output value :=
  match output_format with
  | FormatJson => JsonError error_msg
  | _ => Text error_msg
  end.

Definition execute_raw_sql (db : DB) (sql : string) (output_format : Format)
  : DB * Output value :=
  match connect db with
  | Some e => (db, error_output output_format (sql_error_message db e))
  | None =>
      match run_statements db (split_statements sql) [] with
      | (db', inl all_results) =>
          (commit db',
           match output_format with
           | FormatJson => JsonOf all_results
           | FormatTable => Text (_format_table_results str all_results)
           | FormatOther => Results all_results
           end)
      | (db', inr e) =>
          (rollback db',
           error_output output_format (sql_error_message (rollback db') e))
      end
  end.

(** The strings of a list of outputs, if all of them are strings. *)
Fixpoint all_text (outputs : list (Output value)) : option (list string) :=
  match outputs with
  | [] => Some []
  | Text s :: rest =>
      match all_text rest with
      | Some l => Some (s :: l)
      | None => None
      end
  | _ :: _ => None
  end.

(** [for i, query in enumerate(queries)], from index [i]; [total] is
    [len(queries)]. *)
Fixpoint multi_loop (db : DB) (i total : nat) (queries : list string)
    (output_format : Format) (all_outputs : list (Output value))
  : DB * list (Output value) :=
  match queries with
  | [] => (db, all_outputs)
  | query :: rest =>
      let query := strip query in
      if String.eqb query "" then
        multi_loop db (S i) total rest output_format all_outputs
      else
        let heading :=
          match output_format with
          | FormatTable =>
              [Text ("Query " +++ str_of_nat (i + 1) +++ ": " +++ query);
               Text (repeat_char "-"%char 40)]
          | _ => []
          end in
        let '(db', result) := execute_raw_sql db query output_format in
        let separator :=
          match output_format with
          | FormatTable =>
              if (i <? total - 1)%nat then [Text rule_line] else []
          | _ => []
          end in
        multi_loop db' (S i) total rest output_format
                   (all_outputs ++ heading ++ [result] ++ separator)
  end.

Definition execute_multi_query (db : DB) (queries : list string)
    (output_format : Format) : DB * MultiOutput value :=
  let '(db', all_outputs) :=
    multi_loop db 0 (List.length queries) queries output_format [] in
  (db',
   match output_format with
   | FormatJson => MultiJson all_outputs
   | _ =>
       match all_text all_outputs with
       | Some l => MultiText (join nl l)
       | None => MultiTypeError
       end
   end).

End RawSql.

Arguments run_statements {value DB} execute db statements all_results.
Arguments sql_error_message {DB} get_table_names db e.
Arguments error_output {value} output_format error_msg.
Arguments execute_raw_sql {value} str {DB} connect execute commit rollback
  get_table_names db sql output_format.
Arguments all_text {value} outputs.
Arguments multi_loop {value} str {DB} connect execute commit rollback
  get_table_names db i total queries output_format all_outputs.
Arguments execute_multi_query {value} str {DB} connect execute commit rollback
  get_table_names db queries output_format.

(** ** Vocabulary for the statements about rendering *)

(** The length every row line of a batch has: the column widths and the
    three characters of each separator between them. *)
Definition line_width {value : Type} (str : value -> string)
    (results : list (Row value)) (columns : list string) : nat :=
  list_sum (map (col_width str results) columns)
  + 3 * (List.length columns - 1).

(** ** Vocabulary for the statements about the pipeline *)

(** Whether [get_table_schema] answers with a schema. *)
Definition introspected (get_table_schema : string -> SchemaResult)
    (table : string) : bool :=
  match get_table_schema table with
  | SchemaOk _ => true
  | SchemaError _ => false
  end.

(** ** Vocabulary for the statements about insights *)

(** The pairs that are sorted for the largest-tables line. *)
Definition table_counts (tables_analysis : dict TableAnalysis)
  : list (string * Z) :=
  map (fun '(name, analysis) => (name, row_count analysis)) tables_analysis.

(** The tables the largest-tables line lists. *)
Definition largest_listed (tables_analysis : dict TableAnalysis)
  : list (string * Z) :=
  filter (fun '(_, count) => (count >? 0)%Z)
         (firstn 3 (sorted_desc (table_counts tables_analysis))).

(** [f'{name} ({count:,} rows)'] *)
Definition format_count (entry : string * Z) : string :=
  let '(name, count) := entry in
  name +++ " (" +++ format_thousands count +++ " rows)".

(** The order of the sorted pairs: no later pair has a larger count. *)
Definition count_desc (x y : string * Z) : Prop := (snd y <= snd x)%Z.

(** ** Vocabulary for the statements about query suggestion *)

(** The keyword test of the text-analysis loop. *)
Definition popular_column (text_col : string) : bool :=
  any_in popular_keywords (lower text_col).

(** Candidates of one naming family, by the prefix of their name. *)
Definition named_with (family : string) (q : Query) : bool :=
  String.prefix family (name q).

Definition stats_candidates (table_name : string) (a : TableAnalysis)
  : list Query :=
  filter (named_with "stats_") (_generate_table_queries table_name a).

(** The six templates a candidate can be an instance of. *)
Inductive Shape (table_name : string) (a : TableAnalysis) : Query -> Prop :=
| ShapeSample : (row_count a > 0)%Z -> Shape table_name a (sample_query table_name)
| ShapeCount : (row_count a > 0)%Z -> Shape table_name a (count_query table_name)
| ShapeRecent d : Shape table_name a (recent_query table_name d)
| ShapeRange d : Shape table_name a (date_range_query table_name d)
| ShapeStats c : Shape table_name a (stats_query table_name c)
| ShapePopular c : Shape table_name a (popular_query table_name c).

(** ** Concrete databases used in the examples below *)

Module Examples.

(** A table with one id-like numeric column in front of three others. *)
Definition orders_schema : Schema :=
  {| schema_table := "orders";
     schema_columns :=
       [ mkColumn "id" "INTEGER" false true;
         mkColumn "price" "REAL" false false;
         mkColumn "quantity" "INTEGER" false false;
         mkColumn "total" "REAL" false false ];
     schema_row_count := 7;
     schema_indexes := [] |}.

Definition orders_analysis : TableAnalysis :=
  _analyze_table_schema "orders" orders_schema.

(** A table without rows. *)
Definition events_schema : Schema :=
  {| schema_table := "events";
     schema_columns :=
       [ mkColumn "sample_rate" "REAL" false false;
         mkColumn "created_at" "TEXT" false false;
         mkColumn "name" "TEXT" false false ];
     schema_row_count := 0;
     schema_indexes := [] |}.

Definition events_analysis : TableAnalysis :=
  _analyze_table_schema "events" events_schema.

(** A blog database: [posts] refers to [users] through [user_id]. *)
Definition blog_db (table : string) : SchemaResult :=
  if String.eqb table "users" then
    SchemaOk {| schema_table := "users";
                schema_columns :=
                  [ mkColumn "id" "INTEGER" false true;
                    mkColumn "name" "TEXT" false false ];
                schema_row_count := 3;
                schema_indexes := [] |}
  else if String.eqb table "posts" then
    SchemaOk {| schema_table := "posts";
                schema_columns :=
                  [ mkColumn "id" "INTEGER" false true;
                    mkColumn "user_id" "INTEGER" false false;
                    mkColumn "title" "TEXT" false false ];
                schema_row_count := 1200;
                schema_indexes := [] |}
  else SchemaError ("Error getting schema for " +++ table).

Definition blog_tables : dict TableAnalysis :=
  tables (analyze_database_schema "blog.db" ["posts"; "users"] blog_db).

(** The same database with the column spelled [users_id]. *)
Definition forum_db (table : string) : SchemaResult :=
  if String.eqb table "users" then
    SchemaOk {| schema_table := "users";
                schema_columns :=
                  [ mkColumn "id" "INTEGER" false true;
                    mkColumn "name" "TEXT" false false ];
                schema_row_count := 3;
                schema_indexes := [] |}
  else if String.eqb table "posts" then
    SchemaOk {| schema_table := "posts";
                schema_columns :=
                  [ mkColumn "id" "INTEGER" false true;
                    mkColumn "users_id" "INTEGER" false false;
                    mkColumn "title" "TEXT" false false ];
                schema_row_count := 1200;
                schema_indexes := [] |}
  else SchemaError ("Error getting schema for " +++ table).

Definition forum_tables : dict TableAnalysis :=
  tables (analyze_database_schema "forum.db" ["posts"; "users"] forum_db).

Definition forum_posts : TableAnalysis :=
  _analyze_table_schema "posts"
    {| schema_table := "posts";
       schema_columns :=
         [ mkColumn "id" "INTEGER" false true;
           mkColumn "users_id" "INTEGER" false false;
           mkColumn "title" "TEXT" false false ];
       schema_row_count := 1200;
       schema_indexes := [] |}.

(** A table whose only time-like name also carries a disqualifying
    keyword. *)
Definition ratings_schema : Schema :=
  {| schema_table := "ratings";
     schema_columns :=
       [ mkColumn "id" "INTEGER" false true;
         mkColumn "time_score" "REAL" false false ];
     schema_row_count := 2;
     schema_indexes := [] |}.

(** The table [t(id INTEGER PRIMARY KEY, created_at TEXT, score REAL)]
    with five rows, as the only table of its database. *)
Definition t_schema : Schema :=
  {| schema_table := "t";
     schema_columns :=
       [ mkColumn "id" "INTEGER" false true;
         mkColumn "created_at" "TEXT" false false;
         mkColumn "score" "REAL" false false ];
     schema_row_count := 5;
     schema_indexes := [] |}.

Definition t_db (table : string) : SchemaResult :=
  if String.eqb table "t" then SchemaOk t_schema
  else SchemaError ("Error getting schema for " +++ table).

Definition t_report (db_path : string) : Analysis :=
  analyze_database_schema db_path ["t"] t_db.

(** A database without tables; no schema is ever asked for. *)
Definition empty_report : Analysis :=
  analyze_database_schema "database.db" []
    (fun table => SchemaError ("Error getting schema for " +++ table)).

(** The blog database seen through a driver that fails on one more
    table, listed between the other two. *)
Definition broken_report : Analysis :=
  analyze_database_schema "blog.db" ["posts"; "sessions"; "users"] blog_db.

(** Two result batches of string cells: one row, then no row. *)
Definition two_batches : list (list (dict string)) :=
  [ [ [("a", "x"); ("b", "1")] ]; [] ].

(** A batch whose only column has a name of 44 characters. *)
Definition wide_header_batch : list (dict string) :=
  [ [("a_column_name_of_more_than_thirty_characters", "x")] ].

(** A batch with a cell longer than thirty characters. *)
Definition long_batch : list (dict string) :=
  [ [("note", "a value of more than thirty characters")];
    [("note", "short")] ].

(** A table with a typed date column, a numeric column named like a
    date and a text column named like a date. *)
Definition visits_schema : Schema :=
  {| schema_table := "visits";
     schema_columns :=
       [ mkColumn "id" "integer" false true;
         mkColumn "day" "DATE" false false;
         mkColumn "updated" "INTEGER" false false;
         mkColumn "created_at" "varchar(20)" false false;
         mkColumn "payload" "BLOB" false false ];
     schema_row_count := 12;
     schema_indexes := [] |}.

Definition visits_analysis : TableAnalysis :=
  _analyze_table_schema "visits" visits_schema.

Definition visits_tables : dict TableAnalysis :=
  [("visits", visits_analysis); ("orders", orders_analysis);
   ("events", events_analysis); ("t", _analyze_table_schema "t" t_schema);
   ("ratings", _analyze_table_schema "ratings" ratings_schema)].

(** A database file that lists two tables and answers no introspection. *)
Definition locked_db (table : string) : SchemaResult :=
  SchemaError ("Error getting schema for " +++ table +++ ": database is locked").

Definition locked_report : Analysis :=
  analyze_database_schema "locked.db" ["posts"; "users"] locked_db.

(** A batch whose second row lacks the column [b]. *)
Definition ragged_batch : list (dict string) :=
  [ [("a", "x"); ("b", "12345")]; [("a", "yy")] ].

(** A toy driver on string cells: the database counts the statements
    committed and those pending; a statement that mentions [missing]
    raises, any other returns one row that echoes it. *)
Definition toy_connect (db : nat * nat) : option string := None.

Definition toy_execute (db : nat * nat) (stmt : string)
  : (nat * nat) * (list (dict string) + string) :=
  if contains "missing" (lower stmt)
  then (db, inr "no such table: missing")
  else ((fst db, S (snd db)), inl [[("statement", stmt)]]).

Definition toy_commit (db : nat * nat) : nat * nat := (fst db + snd db, 0).
Definition toy_rollback (db : nat * nat) : nat * nat := (fst db, 0).
Definition toy_tables (db : nat * nat) : list string := ["posts"; "users"].

Definition toy_raw_sql (db : nat * nat) (sql : string) (fmt : Format)
  : (nat * nat) * Output string :=
  execute_raw_sql (fun v : string => v) toy_connect toy_execute toy_commit
    toy_rollback toy_tables db sql fmt.

Definition toy_multi_query (db : nat * nat) (queries : list string)
    (fmt : Format) : (nat * nat) * MultiOutput string :=
  execute_multi_query (fun v : string => v) toy_connect toy_execute toy_commit
    toy_rollback toy_tables db queries fmt.

End Examples.

(** * Properties *)

(** ** Facts about the string primitives *)

Lemma length_concat (a b : string) :
  String.length (a +++ b) = String.length a + String.length b.
Proof. induction a as [|c a IH]; simpl; [reflexivity | now rewrite IH]. Qed.

Lemma concat_empty_r (a : string) : a +++ "" = a.
Proof. induction a as [|c a IH]; simpl; [reflexivity | now rewrite IH]. Qed.

Lemma length_repeat_char (c : ascii) (n : nat) :
  String.length (repeat_char c n) = n.
Proof. induction n as [|n IH]; simpl; [reflexivity | now rewrite IH]. Qed.

Lemma length_take (n : nat) (s : string) :
  String.length (take n s) = Nat.min n (String.length s).
Proof.
  revert s. induction n as [|n IH]; intros [|c s]; simpl; auto.
Qed.

Lemma take_is_prefix (n : nat) (s : string) :
  exists rest, s = take n s +++ rest.
Proof.
  revert s. induction n as [|n IH]; intros s.
  - exists s. now destruct s.
  - destruct s as [|c s]; simpl.
    + now exists "".
    + destruct (IH s) as (rest & E). exists rest. now rewrite <- E.
Qed.

Lemma length_ljust (s : string) (w : nat) :
  String.length (ljust s w) = Nat.max (String.length s) w.
Proof.
  unfold ljust. rewrite length_concat, length_repeat_char. lia.
Qed.

Lemma ljust_full (s : string) (w : nat) :
  w <= String.length s -> ljust s w = s.
Proof.
  intros H. unfold ljust.
  replace (w - String.length s) with 0 by lia. apply concat_empty_r.
Qed.

Lemma prefix_empty (s : string) : String.prefix "" s = true.
Proof. destruct s; reflexivity. Qed.

Lemma prefix_append (p s : string) : String.prefix p (p +++ s) = true.
Proof.
  induction p as [|c p IH]; simpl.
  - apply prefix_empty.
  - destruct (ascii_dec c c) as [_ | n]; [exact IH | now elim n].
Qed.

(** ** Query suggestion *)

Module Suggest.

Import Examples.

#[local] Hint Constructors Shape : core.

Lemma numeric_queries_filter table_name a :
  numeric_queries table_name a =
  map (stats_query table_name)
      (filter not_id_column (firstn 3 (numeric_columns a))).
Proof.
  unfold numeric_queries.
  induction (firstn 3 (numeric_columns a)) as [|c l IH]; simpl.
  - reflexivity.
  - destruct (not_id_column c); simpl; now rewrite IH.
Qed.

Lemma text_queries_shape table_name a q :
  In q (text_queries table_name a) -> exists c, q = popular_query table_name c.
Proof.
  unfold text_queries. rewrite in_flat_map.
  intros (c & _ & Hq).
  destruct (any_in popular_keywords (lower c)); simpl in Hq.
  - destruct Hq as [<- | []]. now exists c.
  - contradiction.
Qed.

(** Every candidate is an instance of one of the six templates. *)
Lemma queries_shape table_name a q :
  In q (_generate_table_queries table_name a) -> Shape table_name a q.
Proof.
  unfold _generate_table_queries. rewrite !in_app_iff.
  intros [H | [H | [H | H]]].
  - unfold basic_queries in H.
    destruct (row_count a >? 0)%Z eqn:E; simpl in H.
    + apply Z.gtb_lt in E.
      destruct H as [<- | [<- | []]]; constructor; lia.
    + contradiction.
  - unfold date_queries in H.
    destruct (date_columns a) as [|d ds]; simpl in H.
    + contradiction.
    + destruct H as [<- | [<- | []]]; auto.
  - rewrite numeric_queries_filter in H. apply in_map_iff in H.
    destruct H as (c & <- & _). auto.
  - apply text_queries_shape in H. destruct H as (c & ->). auto.
Qed.

Lemma filter_none {A} (p : A -> bool) (l : list A) :
  (forall x, In x l -> p x = false) -> filter p l = [].
Proof.
  induction l as [|x l IH]; simpl; intros H.
  - reflexivity.
  - rewrite (H x (or_introl eq_refl)). apply IH. intros y Hy. apply H. now right.
Qed.

Lemma filter_all {A} (p : A -> bool) (l : list A) :
  (forall x, In x l -> p x = true) -> filter p l = l.
Proof.
  induction l as [|x l IH]; simpl; intros H.
  - reflexivity.
  - rewrite (H x (or_introl eq_refl)). f_equal. apply IH.
    intros y Hy. apply H. now right.
Qed.

Lemma stats_of_basic table_name a :
  filter (named_with "stats_") (basic_queries table_name a) = [].
Proof.
  unfold basic_queries. destruct (row_count a >? 0)%Z; reflexivity.
Qed.

Lemma stats_of_date table_name a :
  filter (named_with "stats_") (date_queries table_name a) = [].
Proof.
  unfold date_queries. destruct (date_columns a); reflexivity.
Qed.

Lemma stats_of_text table_name a :
  filter (named_with "stats_") (text_queries table_name a) = [].
Proof.
  apply filter_none. intros q Hq.
  apply text_queries_shape in Hq. destruct Hq as (c & ->). reflexivity.
Qed.

Lemma stats_of_numeric table_name a :
  filter (named_with "stats_") (numeric_queries table_name a) =
  numeric_queries table_name a.
Proof.
  apply filter_all. intros q Hq.
  rewrite numeric_queries_filter in Hq. apply in_map_iff in Hq.
  destruct Hq as (c & <- & _). apply (prefix_append "stats_").
Qed.

(** C3, as stated, fails on the classification of [orders]: three numeric
    columns without [id] exist, yet the id column in front of them uses up
    one of the three scanned places and only two [stats_*] candidates are
    emitted. *)
Lemma stats_cap_counterexample :
  numeric_columns orders_analysis = ["id"; "price"; "quantity"; "total"] /\
  List.length (filter not_id_column (numeric_columns orders_analysis)) = 3 /\
  map name (stats_candidates "orders" orders_analysis)
    = ["stats_orders_price"; "stats_orders_quantity"] /\
  List.length (stats_candidates "orders" orders_analysis) <> 3.
Proof.
  repeat split; try reflexivity.
  vm_compute. discriminate.
Qed.

(** C3 (amended): query suggestion scans the first three numeric columns
    only, in column order, and emits one [stats_*] candidate for each of
    those whose name does not contain [id] (ASCII case-insensitively); no
    other candidate carries a [stats_] name, so at most three are
    emitted. *)
Theorem stats_candidates_first_three table_name a :
  stats_candidates table_name a
    = map (stats_query table_name)
          (filter not_id_column (firstn 3 (numeric_columns a)))
  /\ List.length (stats_candidates table_name a) <= 3.
Proof.
  assert (E : stats_candidates table_name a
              = map (stats_query table_name)
                    (filter not_id_column (firstn 3 (numeric_columns a)))).
  { unfold stats_candidates, _generate_table_queries.
    rewrite !filter_app, stats_of_basic, stats_of_date, stats_of_text,
      stats_of_numeric, app_nil_r.
    simpl. apply numeric_queries_filter. }
  split; [exact E|].
  rewrite E, length_map.
  etransitivity; [apply filter_length_le|].
  apply firstn_le_length.
Qed.

(** C5: with [row_count = 0] no candidate has a name starting with
    [sample_] or [count_]; with [row_count > 0] the candidate named
    [sample_<table>] and the candidate named [count_<table>] are both
    emitted, with the description and the SQL text of the source. *)
Theorem sample_and_count_follow_row_count table_name a :
  (row_count a = 0%Z ->
   forall q, In q (_generate_table_queries table_name a) ->
             String.prefix "sample_" (name q) = false
             /\ String.prefix "count_" (name q) = false)
  /\
  ((row_count a > 0)%Z ->
   In {| name := "sample_" +++ table_name;
         description := "Sample data from " +++ table_name;
         sql := "SELECT * FROM " +++ table_name +++ " LIMIT 5" |}
      (_generate_table_queries table_name a)
   /\
   In {| name := "count_" +++ table_name;
         description := "Total rows in " +++ table_name;
         sql := "SELECT COUNT(*) as total_rows FROM " +++ table_name |}
      (_generate_table_queries table_name a)).
Proof.
  split.
  - intros H0 q Hq. apply queries_shape in Hq.
    destruct Hq; try lia; split; reflexivity.
  - intros Hpos. unfold _generate_table_queries, basic_queries.
    apply Z.gt_lt, Z.gtb_lt in Hpos. rewrite Hpos.
    split; simpl; auto.
Qed.

(** The rule at work on the empty table [events] and on [orders]. *)
Lemma sample_and_count_witness :
  (forall q, In q (_generate_table_queries "events" events_analysis) ->
             String.prefix "sample_" (name q) = false
             /\ String.prefix "count_" (name q) = false)
  /\
  (In {| name := "sample_orders";
         description := "Sample data from orders";
         sql := "SELECT * FROM orders LIMIT 5" |}
      (_generate_table_queries "orders" orders_analysis)
   /\
   In {| name := "count_orders";
         description := "Total rows in orders";
         sql := "SELECT COUNT(*) as total_rows FROM orders" |}
      (_generate_table_queries "orders" orders_analysis)).
Proof.
  split.
  - apply (proj1 (sample_and_count_follow_row_count "events" events_analysis)).
    reflexivity.
  - apply (proj2 (sample_and_count_follow_row_count "orders" orders_analysis)).
    reflexivity.
Defined.

End Suggest.


(** ** Relationship inference *)

Module Relationships.

Import Examples.

Lemma get_In {V} (k : string) (v : V) (d : dict V) :
  get k d = Some v -> In (k, v) d.
Proof.
  induction d as [|[k' v'] d IH]; simpl.
  - discriminate.
  - destruct (String.eqb k k') eqn:E.
    + apply String.eqb_eq in E. intros [= ->]. left. now subst.
    + intros H. right. now apply IH.
Qed.

(** The triple loop, read as a set: which edges it emits. *)
Lemma edges_spec (ta : dict TableAnalysis) (e : RelationshipEdge) :
  In e (relationship_edges ta) <->
  exists a,
    In (from_table e, a) ta /\
    In (from_column e) (keys (column_types a)) /\
    In (to_table e) (keys ta) /\
    to_table e <> from_table e /\
    fk_pattern (from_column e) (to_table e) = true.
Proof.
  unfold relationship_edges. rewrite in_flat_map. split.
  - intros ([t a] & Hta & H).
    apply in_flat_map in H. destruct H as (c & Hc & H).
    apply in_flat_map in H. destruct H as (o & Ho & H).
    destruct (String.eqb o t) eqn:Eot; simpl in H; [contradiction|].
    destruct (fk_pattern c o) eqn:Efk; simpl in H; [|contradiction].
    destruct H as [<- | []]. simpl.
    exists a. repeat split; auto.
    now apply String.eqb_neq.
  - intros (a & Hta & Hc & Ho & Hne & Hfk).
    exists (from_table e, a). split; [exact Hta|].
    apply in_flat_map. exists (from_column e). split; [exact Hc|].
    apply in_flat_map. exists (to_table e). split; [exact Ho|].
    apply String.eqb_neq in Hne. rewrite Hne, Hfk. simpl.
    left. now destruct e.
Qed.

(** C2, as stated, fails on the blog database: its only tables are
    [posts] and [users], [posts] has the column [user_id], and no edge is
    inferred at all, because [user_id] does not contain [users]. *)
Lemma user_id_counterexample :
  keys blog_tables = ["posts"; "users"] /\
  (exists a, get "posts" blog_tables = Some a /\
             In "user_id" (keys (column_types a))) /\
  relationship_edges blog_tables = [] /\
  ~ In (mkEdge "posts" "user_id" "users") (relationship_edges blog_tables) /\
  ~ In "posts.user_id -> users" (potential_relationships blog_tables).
Proof.
  split; [reflexivity|]. split.
  - eexists. split; [reflexivity|]. simpl. auto.
  - split; [reflexivity|]. split; intros H; exact H.
Qed.

(** C2 (amended): in a database that has the tables [users] and [posts],
    a column [c] of [posts] yields the candidate edge [posts.c -> users]
    exactly when the lowercased [c] starts with, ends with or contains
    [users]; a column named [users_id] does, a column named [user_id]
    does not. *)
Theorem posts_edge_to_users (ta : dict TableAnalysis) (a : TableAnalysis)
    (c : string) :
  get "posts" ta = Some a ->
  In "users" (keys ta) ->
  In c (keys (column_types a)) ->
  (In (mkEdge "posts" c "users") (relationship_edges ta)
     <-> fk_pattern c "users" = true)
  /\ (c = "users_id" ->
       In (mkEdge "posts" "users_id" "users") (relationship_edges ta))
  /\ (c = "user_id" ->
       ~ In (mkEdge "posts" "user_id" "users") (relationship_edges ta)).
Proof.
  intros Hget Husers Hc.
  assert (Hiff : forall c', In c' (keys (column_types a)) ->
            (In (mkEdge "posts" c' "users") (relationship_edges ta)
               <-> fk_pattern c' "users" = true)).
  { intros c' Hc'. rewrite edges_spec. simpl. split.
    - intros (a' & _ & _ & _ & _ & Hfk). exact Hfk.
    - intros Hfk. exists a. repeat split; auto.
      + now apply get_In.
      + discriminate. }
  split; [now apply Hiff|]. split.
  - intros ->. apply Hiff; [exact Hc | reflexivity].
  - intros -> H. apply Hiff in H; [discriminate H | exact Hc].
Qed.

(** The forum database, whose [posts] table spells the column [users_id]. *)
Lemma posts_edge_to_users_witness :
  In (mkEdge "posts" "users_id" "users") (relationship_edges forum_tables).
Proof.
  refine (proj1 (proj2
    (posts_edge_to_users forum_tables forum_posts "users_id" eq_refl _ _))
    eq_refl).
  - simpl. auto.
  - simpl. auto.
Defined.

(** C6: no inferred edge joins a table to itself. *)
Theorem edges_join_distinct_tables (ta : dict TableAnalysis)
    (e : RelationshipEdge) :
  In e (relationship_edges ta) -> from_table e <> to_table e.
Proof.
  intros H. apply edges_spec in H.
  destruct H as (a & _ & _ & _ & Hne & _).
  intros Heq. apply Hne. now symmetry.
Qed.

(** The edge inferred in the forum database joins two different tables. *)
Lemma edges_join_distinct_tables_witness :
  In (mkEdge "posts" "users_id" "users") (relationship_edges forum_tables) /\
  from_table (mkEdge "posts" "users_id" "users")
    <> to_table (mkEdge "posts" "users_id" "users").
Proof.
  assert (H : In (mkEdge "posts" "users_id" "users")
                 (relationship_edges forum_tables)) by (simpl; auto).
  split; [exact H|].
  exact (edges_join_distinct_tables forum_tables _ H).
Defined.

End Relationships.


(** ** Column classification *)

Module Classifier.

Import Examples.

Lemma mem_In (x : string) (l : list string) : mem x l = true <-> In x l.
Proof.
  unfold mem. rewrite existsb_exists. split.
  - intros (y & Hy & E). apply String.eqb_eq in E. now subst.
  - intros H. exists x. split; [exact H | apply String.eqb_refl].
Qed.

Lemma categorize_dates (cname ctype : string) (a : TableAnalysis) :
  snd (categorize cname ctype a) =
  if typed_date ctype then date_columns a ++ [cname] else date_columns a.
Proof.
  unfold categorize, typed_date.
  destruct (is_numeric_type ctype); [reflexivity|].
  destruct (is_text_type ctype); [reflexivity|].
  destruct (is_date_type ctype); reflexivity.
Qed.

(** The two fields the timestamp rule writes, after one column. *)
Lemma date_columns_step (a : TableAnalysis) (col : Column) :
  date_columns (analyze_column a col) =
  let dates := snd (categorize (col_name col) (upper (col_type col)) a) in
  if timestamp_pattern (col_name col)
  then (if mem (col_name col) dates then dates else dates ++ [col_name col])
  else dates.
Proof.
  unfold analyze_column.
  destruct (categorize (col_name col) (upper (col_type col)) a) as [[n t] d].
  reflexivity.
Qed.

Lemma has_timestamps_step (a : TableAnalysis) (col : Column) :
  has_timestamps (analyze_column a col) =
  has_timestamps a || timestamp_pattern (col_name col).
Proof.
  unfold analyze_column.
  destruct (categorize (col_name col) (upper (col_type col)) a) as [[n t] d].
  simpl. destruct (timestamp_pattern (col_name col)), (has_timestamps a);
    reflexivity.
Qed.

Lemma date_columns_step_mono (a : TableAnalysis) (col : Column) (n : string) :
  In n (date_columns a) -> In n (date_columns (analyze_column a col)).
Proof.
  intros H. rewrite date_columns_step, categorize_dates. cbv zeta.
  assert (Hd : In n (if typed_date (upper (col_type col))
                     then date_columns a ++ [col_name col]
                     else date_columns a)).
  { destruct (typed_date _); [apply in_or_app; now left | exact H]. }
  destruct (timestamp_pattern _); [|exact Hd].
  destruct (mem _ _); [exact Hd | apply in_or_app; now left].
Qed.

Lemma date_columns_step_fires (a : TableAnalysis) (col : Column) :
  timestamp_pattern (col_name col) = true ->
  In (col_name col) (date_columns (analyze_column a col)).
Proof.
  intros H. rewrite date_columns_step, H. cbv zeta.
  destruct (mem _ _) eqn:E.
  - now apply mem_In.
  - apply in_or_app. right. simpl. auto.
Qed.

(** Where a name in [date_columns] after one column comes from. *)
Lemma date_columns_step_inv (a : TableAnalysis) (col : Column) (n : string) :
  In n (date_columns (analyze_column a col)) ->
  In n (date_columns a) \/
  (n = col_name col /\
   (typed_date (upper (col_type col)) = true \/
    timestamp_pattern (col_name col) = true)).
Proof.
  rewrite date_columns_step, categorize_dates. cbv zeta.
  destruct (typed_date _) eqn:Et, (timestamp_pattern _) eqn:Ep;
    try destruct (mem _ _);
    rewrite ?in_app_iff; simpl; intuition auto.
Qed.

Lemma has_timestamps_fold (cols : list Column) (a : TableAnalysis) :
  has_timestamps (fold_left analyze_column cols a) =
  has_timestamps a
  || existsb (fun c => timestamp_pattern (col_name c)) cols.
Proof.
  revert a. induction cols as [|col cols IH]; intros a; simpl.
  - now rewrite orb_false_r.
  - rewrite IH, has_timestamps_step. now rewrite orb_assoc.
Qed.

Lemma date_columns_fold_mono (cols : list Column) (a : TableAnalysis)
    (n : string) :
  In n (date_columns a) -> In n (date_columns (fold_left analyze_column cols a)).
Proof.
  revert a. induction cols as [|col cols IH]; intros a H; simpl.
  - exact H.
  - apply IH. now apply date_columns_step_mono.
Qed.

Lemma date_columns_fold_fires (cols : list Column) (a : TableAnalysis)
    (col : Column) :
  In col cols -> timestamp_pattern (col_name col) = true ->
  In (col_name col) (date_columns (fold_left analyze_column cols a)).
Proof.
  revert a. induction cols as [|c cols IH]; intros a Hin Hp; simpl.
  - contradiction.
  - destruct Hin as [-> | Hin].
    + apply date_columns_fold_mono. now apply date_columns_step_fires.
    + now apply IH.
Qed.

Lemma date_columns_fold_inv (cols : list Column) (a : TableAnalysis)
    (n : string) :
  In n (date_columns (fold_left analyze_column cols a)) ->
  In n (date_columns a) \/
  exists c, In c cols /\ col_name c = n /\
            (typed_date (upper (col_type c)) = true \/
             timestamp_pattern (col_name c) = true).
Proof.
  revert a. induction cols as [|col cols IH]; intros a H; simpl in H.
  - now left.
  - apply IH in H. destruct H as [H | (c & Hc & Hn & Hk)].
    + apply date_columns_step_inv in H. destruct H as [H | [-> Hk]].
      * now left.
      * right. exists col. simpl. auto.
    + right. exists c. simpl. auto.
Qed.

(** C7: a column whose lowercased name contains a disqualifying keyword
    never triggers the name heuristic, whatever temporal keyword it also
    contains: processing it leaves [has_timestamps] as it was and changes
    [date_columns] only as the declared type says; in the finished
    classification [has_timestamps] is owed to some other, undisqualified
    column, and the name is in [date_columns] only through a DATE/TIME
    type. *)
Theorem disqualifier_wins (table_name : string) (schema : Schema)
    (col : Column) :
  In col (schema_columns schema) ->
  any_in disqualifying_keywords (lower (col_name col)) = true ->
  timestamp_pattern (col_name col) = false
  /\ (forall a,
        has_timestamps (analyze_column a col) = has_timestamps a /\
        date_columns (analyze_column a col)
          = snd (categorize (col_name col) (upper (col_type col)) a))
  /\ (has_timestamps (_analyze_table_schema table_name schema) = true ->
       exists c, In c (schema_columns schema) /\
                 any_in temporal_keywords (lower (col_name c)) = true /\
                 any_in disqualifying_keywords (lower (col_name c)) = false)
  /\ (In (col_name col)
          (date_columns (_analyze_table_schema table_name schema)) ->
       exists c, In c (schema_columns schema) /\
                 col_name c = col_name col /\
                 typed_date (upper (col_type c)) = true).
Proof.
  intros Hin Hdis.
  assert (Hp : timestamp_pattern (col_name col) = false).
  { unfold timestamp_pattern. rewrite Hdis. apply andb_false_r. }
  split; [exact Hp|]. split; [|split].
  - intros a. split.
    + rewrite has_timestamps_step, Hp. apply orb_false_r.
    + rewrite date_columns_step, Hp. reflexivity.
  - unfold _analyze_table_schema. rewrite has_timestamps_fold. simpl.
    intros H. apply existsb_exists in H. destruct H as (c & Hc & Hfire).
    exists c. split; [exact Hc|].
    unfold timestamp_pattern in Hfire. apply andb_prop in Hfire.
    destruct Hfire as [Ht Hd]. split; [exact Ht|].
    now apply negb_true_iff.
  - unfold _analyze_table_schema. intros H.
    apply date_columns_fold_inv in H. destruct H as [[] | (c & Hc & Hn & Hk)].
    exists c. split; [exact Hc|]. split; [exact Hn|].
    destruct Hk as [Hk | Hk]; [exact Hk|].
    rewrite Hn, Hp in Hk. discriminate.
Qed.

(** The column [time_score] of [ratings]: [time] is there, [score] wins. *)
Lemma disqualifier_wins_witness :
  any_in temporal_keywords (lower "time_score") = true /\
  timestamp_pattern "time_score" = false /\
  has_timestamps (_analyze_table_schema "ratings" ratings_schema) = false /\
  (In "time_score" (date_columns (_analyze_table_schema "ratings" ratings_schema))
   -> exists c, In c (schema_columns ratings_schema) /\
                col_name c = "time_score" /\
                typed_date (upper (col_type c)) = true).
Proof.
  assert (Hin : In (mkColumn "time_score" "REAL" false false)
                   (schema_columns ratings_schema)) by (simpl; auto).
  destruct (disqualifier_wins "ratings" ratings_schema _ Hin eq_refl)
    as (Hp & _ & _ & Hd).
  split; [reflexivity|]. split; [exact Hp|]. split; [reflexivity | exact Hd].
Defined.

(** C10: whenever the classification has [has_timestamps] set, its
    [date_columns] is not empty: it holds the name of a column that
    triggered the name heuristic. *)
Theorem timestamps_imply_date_column (table_name : string) (schema : Schema) :
  has_timestamps (_analyze_table_schema table_name schema) = true ->
  date_columns (_analyze_table_schema table_name schema) <> []
  /\ exists col, In col (schema_columns schema) /\
                 timestamp_pattern (col_name col) = true /\
                 In (col_name col)
                    (date_columns (_analyze_table_schema table_name schema)).
Proof.
  unfold _analyze_table_schema. rewrite has_timestamps_fold. simpl.
  intros H. apply existsb_exists in H. destruct H as (col & Hcol & Hfire).
  pose proof (date_columns_fold_fires (schema_columns schema)
                (initial_analysis schema) col Hcol Hfire) as Hd.
  split.
  - intros E. rewrite E in Hd. exact Hd.
  - exists col. auto.
Qed.

(** The table [events], flagged through its column [created_at]. *)
Lemma timestamps_imply_date_column_witness :
  date_columns (_analyze_table_schema "events" events_schema) <> []
  /\ exists col, In col (schema_columns events_schema) /\
                 timestamp_pattern (col_name col) = true /\
                 In (col_name col)
                    (date_columns (_analyze_table_schema "events" events_schema)).
Proof.
  apply (timestamps_imply_date_column "events" events_schema).
  reflexivity.
Defined.

End Classifier.


(** ** The analysis pipeline *)

Module Pipeline.

Import Examples.

Section Driver.

Variable get_table_schema : string -> SchemaResult.

Lemma get_set_same {V} (k : string) (v : V) (d : dict V) :
  get k (set k v d) = Some v.
Proof.
  induction d as [|[k' v'] d IH]; simpl.
  - now rewrite String.eqb_refl.
  - destruct (String.eqb k k') eqn:E; simpl; rewrite E; auto.
Qed.

Lemma get_set_other {V} (k k' : string) (v : V) (d : dict V) :
  k <> k' -> get k (set k' v d) = get k d.
Proof.
  intros Hne. induction d as [|[k0 v0] d IH]; simpl.
  - apply String.eqb_neq in Hne. now rewrite Hne.
  - destruct (String.eqb k' k0) eqn:E; simpl.
    + apply String.eqb_eq in E. subst k0.
      apply String.eqb_neq in Hne. now rewrite Hne.
    + now rewrite IH.
Qed.

Lemma queries_fold (l : list string) (acc : dict TableAnalysis * list Query) :
  snd (fold_left (analyze_table get_table_schema) l acc)
  = snd acc ++ flat_map (table_queries get_table_schema) l.
Proof.
  revert acc. induction l as [|t l IH]; intros acc; simpl.
  - now rewrite app_nil_r.
  - rewrite IH. unfold analyze_table, table_queries.
    destruct (get_table_schema t); simpl.
    + now rewrite app_assoc.
    + reflexivity.
Qed.

Lemma fold_skips_failure (before after : list string) (bad message : string)
    (acc : dict TableAnalysis * list Query) :
  get_table_schema bad = SchemaError message ->
  fold_left (analyze_table get_table_schema) (before ++ bad :: after) acc
  = fold_left (analyze_table get_table_schema) (before ++ after) acc.
Proof.
  intros Hbad. rewrite !fold_left_app. simpl.
  unfold analyze_table at 2. now rewrite Hbad.
Qed.

Lemma failure_stays_absent (l : list string) (bad message : string)
    (acc : dict TableAnalysis * list Query) :
  get_table_schema bad = SchemaError message ->
  get bad (fst (fold_left (analyze_table get_table_schema) l acc))
  = get bad (fst acc).
Proof.
  intros Hbad. revert acc. induction l as [|t l IH]; intros acc; simpl.
  - reflexivity.
  - rewrite IH. unfold analyze_table.
    destruct (get_table_schema t) eqn:Et; simpl; [|reflexivity].
    apply get_set_other. intros ->. congruence.
Qed.

Lemma success_is_recorded (l : list string) (t : string) (schema : Schema)
    (acc : dict TableAnalysis * list Query) :
  get_table_schema t = SchemaOk schema ->
  In t l \/ get t (fst acc) = Some (_analyze_table_schema t schema) ->
  get t (fst (fold_left (analyze_table get_table_schema) l acc))
  = Some (_analyze_table_schema t schema).
Proof.
  intros Hok. revert acc. induction l as [|t' l IH]; intros acc H; simpl.
  - destruct H as [[] | H]. exact H.
  - apply IH. unfold analyze_table.
    destruct (String.eqb t t') eqn:E.
    + apply String.eqb_eq in E. subst t'. right.
      rewrite Hok. simpl. apply get_set_same.
    + apply String.eqb_neq in E.
      destruct H as [[-> | H] | H]; [congruence | now left | right].
      destruct (get_table_schema t'); simpl; [|exact H].
      now rewrite get_set_other.
Qed.

End Driver.

(** C9: a table whose introspection fails is skipped and nothing else
    changes: the report is built, its per-table map and suggested queries
    are those of the table list without the failing table, the failing
    table has no entry and adds no query, every table whose introspection
    succeeds has its own classification and all of its queries in the
    report, and the insights are generated from that per-table map. *)
Theorem failing_table_is_skipped (db_path : string)
    (get_table_schema : string -> SchemaResult)
    (before after : list string) (bad message : string) :
  get_table_schema bad = SchemaError message ->
  tables (analyze_database_schema db_path (before ++ bad :: after)
            get_table_schema)
    = fst (analyze_tables get_table_schema (before ++ after))
  /\ suggested_queries (analyze_database_schema db_path
                          (before ++ bad :: after) get_table_schema)
      = flat_map (table_queries get_table_schema) (before ++ after)
  /\ table_queries get_table_schema bad = []
  /\ get bad (tables (analyze_database_schema db_path
                        (before ++ bad :: after) get_table_schema)) = None
  /\ insights (analyze_database_schema db_path (before ++ bad :: after)
                get_table_schema)
      = _generate_database_insights
          (tables (analyze_database_schema db_path (before ++ bad :: after)
                     get_table_schema))
  /\ (forall t schema,
        In t (before ++ after) ->
        get_table_schema t = SchemaOk schema ->
        get t (tables (analyze_database_schema db_path
                         (before ++ bad :: after) get_table_schema))
          = Some (_analyze_table_schema t schema)
        /\ incl (_generate_table_queries t (_analyze_table_schema t schema))
                (suggested_queries
                   (analyze_database_schema db_path (before ++ bad :: after)
                      get_table_schema))).
Proof.
  intros Hbad.
  assert (Hrep : analyze_database_schema db_path (before ++ bad :: after)
                   get_table_schema
                 = {| database_path := db_path;
                      tables := fst (analyze_tables get_table_schema
                                       (before ++ after));
                      suggested_queries :=
                        snd (analyze_tables get_table_schema (before ++ after));
                      insights :=
                        _generate_database_insights
                          (fst (analyze_tables get_table_schema
                                  (before ++ after))) |}).
  { unfold analyze_database_schema, analyze_tables.
    rewrite (fold_skips_failure get_table_schema before after bad message _ Hbad).
    destruct (fold_left _ (before ++ after) _) as [tbls queries].
    destruct before; reflexivity. }
  rewrite Hrep. simpl. unfold analyze_tables.
  rewrite queries_fold. simpl.
  split; [reflexivity|]. split; [reflexivity|]. split.
  { unfold table_queries. now rewrite Hbad. }
  split.
  { now rewrite (failure_stays_absent _ _ bad message). }
  split; [reflexivity|].
  intros t schema Hin Hok. split.
  - apply success_is_recorded; auto.
  - intros q Hq. apply in_flat_map. exists t. split; [exact Hin|].
    unfold table_queries. now rewrite Hok.
Qed.

(** The blog database with a table [sessions] that cannot be introspected. *)
Lemma failing_table_is_skipped_witness :
  keys (tables broken_report) = ["posts"; "users"]
  /\ get "sessions" (tables broken_report) = None
  /\ suggested_queries broken_report
      = flat_map (table_queries blog_db) ["posts"; "users"]
  /\ insights broken_report
      = _generate_database_insights (tables broken_report).
Proof.
  destruct (failing_table_is_skipped "blog.db" blog_db ["posts"] ["users"]
              "sessions" _ eq_refl) as (Ht & Hq & _ & Hg & Hi & _).
  split; [reflexivity|]. split; [exact Hg|]. split; [exact Hq | exact Hi].
Defined.

(** C1, as stated, fails: the classification of [t] lists [id] among
    the numeric columns, since its declared type is INTEGER; only query
    suggestion leaves id-like columns out. *)
Lemma end_to_end_counterexample :
  (exists a, get "t" (tables (t_report "database.db")) = Some a /\
             numeric_columns a = ["id"; "score"])
  /\ (forall a, get "t" (tables (t_report "database.db")) = Some a ->
                numeric_columns a <> ["score"]).
Proof.
  split.
  - eexists. split; reflexivity.
  - intros a [= <-]. discriminate.
Qed.

(** C1 (amended): for [t(id INTEGER PRIMARY KEY, created_at TEXT, score
    REAL)] with five rows the analysis gives a classification with
    [numeric_columns = ["id"; "score"]] and [date_columns =
    ["created_at"]]; the suggested queries are [sample_t], [count_t],
    [recent_t], [date_range_t] and [stats_t_score], and none is named
    [stats_t_id]. *)
Theorem end_to_end_t (db_path : string) :
  exists a,
    get "t" (tables (t_report db_path)) = Some a
    /\ numeric_columns a = ["id"; "score"]
    /\ date_columns a = ["created_at"]
    /\ map name (suggested_queries (t_report db_path))
        = ["sample_t"; "count_t"; "recent_t"; "date_range_t"; "stats_t_score"]
    /\ ~ In "stats_t_id" (map name (suggested_queries (t_report db_path))).
Proof.
  eexists. split; [reflexivity|]. repeat split.
  simpl. intros H.
  repeat (destruct H as [H | H]; [discriminate H|]). exact H.
Qed.

(** C4, as stated, fails: the analysis of a database without tables
    returns before any insight is generated, so its insights are empty
    and hold no summary line. *)
Lemma empty_database_counterexample :
  tables empty_report = []
  /\ insights empty_report = []
  /\ ~ In (summary_line 0 0) (insights empty_report).
Proof.
  split; [reflexivity|]. split; [reflexivity|]. intros H. exact H.
Qed.

(** C4 (amended): insight generation always returns a list that starts
    with the summary line, and on an empty per-table map it returns
    exactly the line [Database contains 0 tables with 0 total rows].  The
    analysis of a database with no tables returns an empty insights list;
    with a non-empty table list its insights are those generated from the
    per-table map. *)
Theorem insights_of_empty_database (db_path : string)
    (get_table_schema : string -> SchemaResult) :
  (forall ta, exists rest,
      _generate_database_insights ta
        = summary_line (List.length ta) (sum_row_counts ta) :: rest)
  /\ _generate_database_insights []
      = ["Database contains 0 tables with 0 total rows"]
  /\ insights (analyze_database_schema db_path [] get_table_schema) = []
  /\ (forall t ts,
        insights (analyze_database_schema db_path (t :: ts) get_table_schema)
        = _generate_database_insights
            (tables (analyze_database_schema db_path (t :: ts)
                       get_table_schema))).
Proof.
  split.
  { intros ta. unfold _generate_database_insights. simpl.
    eexists. reflexivity. }
  split; [reflexivity|]. split; [reflexivity|].
  intros t ts. unfold analyze_database_schema.
  destruct (analyze_tables get_table_schema (t :: ts)) as [tbls queries].
  reflexivity.
Qed.

End Pipeline.


(** ** Text rendering *)

Module Rendering.

Import Examples.

Section Cells.

Variable value : Type.
Variable str : value -> string.

Lemma max_of_upper (l : list nat) (x : nat) : In x l -> x <= max_of l.
Proof.
  induction l as [|y l IH]; simpl; intros H.
  - contradiction.
  - destruct H as [-> | H]; [lia | specialize (IH H); lia].
Qed.

Lemma max_of_attained (l : list nat) : l <> [] -> In (max_of l) l.
Proof.
  induction l as [|y l IH]; intros Hne; [congruence|].
  destruct l as [|z l].
  - simpl. left. lia.
  - assert (H : In (max_of (z :: l)) (z :: l)) by (apply IH; discriminate).
    change (max_of (y :: z :: l)) with (Nat.max y (max_of (z :: l))).
    destruct (Nat.max_spec y (max_of (z :: l))) as [[_ ->] | [_ ->]].
    + now right.
    + now left.
Qed.

Lemma length_render_cell (results : list (Row value)) (row : Row value) (col : string) :
  String.length (render_cell str results row col) = col_width str results col.
Proof.
  unfold render_cell. rewrite length_ljust, length_take. lia.
Qed.

Lemma render_cell_truncates (results : list (Row value)) (row : Row value) (col : string) :
  col_width str results col <= String.length (cell str row col) ->
  render_cell str results row col = take (col_width str results col) (cell str row col).
Proof.
  intros H. unfold render_cell. apply ljust_full.
  rewrite length_take. lia.
Qed.

Lemma format_batches_later (i : nat) (batch : list (Row value))
    (later : list (list (Row value))) :
  0 < i ->
  format_batches str i (batch :: later)
  = rule_line :: format_batch str batch ++ format_batches str (S i) later.
Proof.
  intros H. simpl. apply Nat.ltb_lt in H. now rewrite H.
Qed.

Lemma format_batches_app (i : nat) (earlier later : list (list (Row value))) :
  format_batches str i (earlier ++ later)
  = format_batches str i earlier ++ format_batches str (i + List.length earlier) later.
Proof.
  revert i. induction earlier as [|b earlier IH]; intros i; simpl.
  - now rewrite Nat.add_0_r.
  - rewrite IH, <- !app_assoc. now rewrite Nat.add_succ_r.
Qed.

End Cells.

Arguments length_render_cell {value}.
Arguments render_cell_truncates {value}.
Arguments format_batches_later {value}.
Arguments format_batches_app {value}.

Lemma take_short (n : nat) (t : string) :
  String.length t <= n -> take n t = t.
Proof.
  revert t. induction n as [|n IH]; intros [|c t]; simpl; intros H;
    try reflexivity; try lia.
  rewrite IH; [reflexivity | lia].
Qed.

(** The rendered cell without the names of the renderer: cut to the
    width when longer, padded with spaces otherwise. *)
Lemma render_cell_explicit {value : Type} (str : value -> string)
    (results : list (Row value)) (row : Row value) (col : string) :
  render_cell str results row col
  = if (col_width str results col <? String.length (cell str row col))%nat
    then take (col_width str results col) (cell str row col)
    else cell str row col
         +++ repeat_char " "%char
               (col_width str results col - String.length (cell str row col)).
Proof.
  destruct (col_width str results col <? String.length (cell str row col))%nat
    eqn:E.
  - apply Nat.ltb_lt in E. apply render_cell_truncates. lia.
  - apply Nat.ltb_ge in E. unfold render_cell.
    now rewrite take_short by exact E.
Qed.

Lemma format_batches_rules {value : Type} (str : value -> string)
    (i : nat) (later : list (list (Row value))) :
  0 < i ->
  format_batches str i later
  = flat_map (fun b => rule_line :: format_batch str b) later.
Proof.
  revert i. induction later as [|b later IH]; intros i Hi; [reflexivity|].
  rewrite (format_batches_later str i b later Hi).
  cbn [flat_map app]. f_equal. f_equal. apply IH. lia.
Qed.




End Rendering.


(** ** More facts about strings and lists *)

Lemma concat_cancel_l (s a b : string) : s +++ a = s +++ b -> a = b.
Proof.
  induction s as [|c s IH]; simpl; intros H; [exact H|].
  injection H as H. now apply IH.
Qed.

Lemma concat_same_length (a b x y : string) :
  String.length a = String.length b -> a +++ x = b +++ y -> a = b /\ x = y.
Proof.
  revert b. induction a as [|c a IH]; intros [|d b]; simpl; intros Hl H;
    try discriminate.
  - auto.
  - injection H as -> H. injection Hl as Hl.
    destruct (IH b Hl H) as [-> ->]. auto.
Qed.

Lemma concat_cancel_r (s a b : string) : a +++ s = b +++ s -> a = b.
Proof.
  intros H. apply (concat_same_length a b s s); [|exact H].
  apply (f_equal String.length) in H. rewrite !length_concat in H. lia.
Qed.

Lemma NoDup_firstn {A} (n : nat) (l : list A) : NoDup l -> NoDup (firstn n l).
Proof.
  revert l. induction n as [|n IH]; intros [|x l] H; simpl; try constructor.
  - inversion H as [|y l' Hnotin Hnd]. subst.
    intros Hin. apply Hnotin. revert Hin. clear.
    revert l. induction n as [|n IH]; intros [|y l]; simpl; try tauto.
    intros [-> | H]; [now left | right; now apply IH].
  - inversion H. now apply IH.
Qed.

Lemma NoDup_map_injective {A B} (f : A -> B) (l : list A) :
  (forall x y, f x = f y -> x = y) -> NoDup l -> NoDup (map f l).
Proof.
  intros Hinj. induction 1 as [|x l Hnotin Hnd IH]; simpl; constructor.
  - rewrite in_map_iff. intros (y & E & Hy). apply Hinj in E. now subst.
  - exact IH.
Qed.

Lemma NoDup_map_filter {A B} (f : A -> B) (p : A -> bool) (l : list A) :
  NoDup (map f l) -> NoDup (map f (filter p l)).
Proof.
  induction l as [|x l IH]; simpl; intros H; [constructor|].
  inversion H as [|y l' Hnotin Hnd]. subst.
  destruct (p x); simpl; [constructor|]; auto.
  rewrite in_map_iff. intros (y & E & Hy). apply filter_In in Hy.
  apply Hnotin. rewrite <- E. apply in_map. tauto.
Qed.

(** ** More on column classification *)

Module ClassifierFacts.

Import Examples Classifier.

Lemma categorize_numeric (cname ctype : string) (a : TableAnalysis) :
  fst (fst (categorize cname ctype a)) =
  numeric_columns a ++ (if is_numeric_type ctype then [cname] else []).
Proof.
  unfold categorize.
  destruct (is_numeric_type ctype); [reflexivity|].
  destruct (is_text_type ctype); [now rewrite app_nil_r|].
  destruct (is_date_type ctype); now rewrite app_nil_r.
Qed.

Lemma categorize_text (cname ctype : string) (a : TableAnalysis) :
  snd (fst (categorize cname ctype a)) =
  text_columns a
  ++ (if negb (is_numeric_type ctype) && is_text_type ctype
      then [cname] else []).
Proof.
  unfold categorize.
  destruct (is_numeric_type ctype); [now rewrite app_nil_r|].
  destruct (is_text_type ctype); [reflexivity|].
  destruct (is_date_type ctype); now rewrite app_nil_r.
Qed.

Lemma numeric_columns_step (a : TableAnalysis) (col : Column) :
  numeric_columns (analyze_column a col) =
  numeric_columns a ++ (if numeric_col col then [col_name col] else []).
Proof.
  unfold numeric_col. rewrite <- categorize_numeric. unfold analyze_column.
  destruct (categorize _ _ a) as [[n t] d]. reflexivity.
Qed.

Lemma text_columns_step (a : TableAnalysis) (col : Column) :
  text_columns (analyze_column a col) =
  text_columns a ++ (if text_col col then [col_name col] else []).
Proof.
  unfold text_col. rewrite <- categorize_text. unfold analyze_column.
  destruct (categorize _ _ a) as [[n t] d]. reflexivity.
Qed.

Lemma primary_keys_step (a : TableAnalysis) (col : Column) :
  primary_keys (analyze_column a col) =
  primary_keys a ++ (if primary_key col then [col_name col] else []).
Proof.
  unfold analyze_column.
  destruct (categorize _ _ a) as [[n t] d]. simpl.
  destruct (primary_key col); [reflexivity | now rewrite app_nil_r].
Qed.

Lemma column_types_step (a : TableAnalysis) (col : Column) :
  column_types (analyze_column a col) =
  set (col_name col) (upper (col_type col)) (column_types a).
Proof.
  unfold analyze_column.
  destruct (categorize _ _ a) as [[n t] d]. reflexivity.
Qed.

Lemma untouched_step (a : TableAnalysis) (col : Column) :
  row_count (analyze_column a col) = row_count a /\
  likely_relationships (analyze_column a col) = likely_relationships a.
Proof.
  unfold analyze_column.
  destruct (categorize _ _ a) as [[n t] d]. split; reflexivity.
Qed.

(** A list field that each column either extends by its name or leaves
    alone ends up as the names of the columns that extend it. *)
Lemma appended_names (field : TableAnalysis -> list string)
    (p : Column -> bool) :
  (forall a col,
      field (analyze_column a col)
      = field a ++ (if p col then [col_name col] else [])) ->
  forall cols a,
    field (fold_left analyze_column cols a)
    = field a ++ map col_name (filter p cols).
Proof.
  intros Hstep cols. induction cols as [|col cols IH]; intros a; simpl.
  - now rewrite app_nil_r.
  - rewrite IH, Hstep, <- app_assoc. f_equal.
    destruct (p col); reflexivity.
Qed.

Lemma untouched_fold (cols : list Column) (a : TableAnalysis) :
  row_count (fold_left analyze_column cols a) = row_count a /\
  likely_relationships (fold_left analyze_column cols a)
  = likely_relationships a.
Proof.
  revert a. induction cols as [|col cols IH]; intros a; simpl.
  - split; reflexivity.
  - destruct (IH (analyze_column a col)) as [-> ->]. apply untouched_step.
Qed.

Lemma unique_by_name (cols : list Column) (c1 c2 : Column) :
  NoDup (map col_name cols) -> In c1 cols -> In c2 cols ->
  col_name c1 = col_name c2 -> c1 = c2.
Proof.
  induction cols as [|c cols IH]; simpl; intros Hnd H1 H2 E.
  - contradiction.
  - inversion Hnd as [|x l Hnotin Hnd']. subst.
    destruct H1 as [-> | H1], H2 as [-> | H2].
    + reflexivity.
    + elim Hnotin. rewrite E. now apply in_map.
    + elim Hnotin. rewrite <- E. now apply in_map.
    + now apply IH.
Qed.

Lemma date_columns_step_typed (a : TableAnalysis) (col : Column) :
  date_col col = true -> In (col_name col) (date_columns (analyze_column a col)).
Proof.
  unfold date_col. intros H.
  rewrite date_columns_step, categorize_dates, H. cbv zeta.
  assert (Hin : In (col_name col) (date_columns a ++ [col_name col]))
    by (apply in_or_app; right; simpl; auto).
  destruct (timestamp_pattern _); [|exact Hin].
  destruct (mem _ _); [exact Hin | apply in_or_app; now left].
Qed.

Lemma date_columns_fold_typed (cols : list Column) (a : TableAnalysis)
    (col : Column) :
  In col cols -> date_col col = true ->
  In (col_name col) (date_columns (fold_left analyze_column cols a)).
Proof.
  revert a. induction cols as [|c cols IH]; intros a Hin Hd; simpl.
  - contradiction.
  - destruct Hin as [-> | Hin].
    + apply date_columns_fold_mono. now apply date_columns_step_typed.
    + now apply IH.
Qed.

Lemma set_fresh {V} (k : string) (v : V) (d : dict V) :
  ~ In k (keys d) -> set k v d = d ++ [(k, v)].
Proof.
  induction d as [|[k' v'] d IH]; simpl; intros Hfresh.
  - reflexivity.
  - destruct (String.eqb k k') eqn:E.
    + apply String.eqb_eq in E. elim Hfresh. now left.
    + f_equal. apply IH. intros H. apply Hfresh. now right.
Qed.

Lemma column_types_fold (cols : list Column) (a : TableAnalysis) :
  NoDup (keys (column_types a) ++ map col_name cols) ->
  column_types (fold_left analyze_column cols a)
  = column_types a ++ map type_entry cols.
Proof.
  revert a. induction cols as [|col cols IH]; intros a Hnd; simpl.
  - now rewrite app_nil_r.
  - assert (Hfresh : ~ In (col_name col) (keys (column_types a))).
    { intros Hin. apply NoDup_remove_2 in Hnd. apply Hnd.
      apply in_or_app. now left. }
    assert (Hstep : column_types (analyze_column a col)
                    = column_types a ++ [type_entry col]).
    { rewrite column_types_step. now apply set_fresh. }
    rewrite IH, Hstep, <- app_assoc; [reflexivity|].
    rewrite Hstep. unfold keys. rewrite map_app, <- app_assoc. exact Hnd.
Qed.

Lemma date_columns_fold_nodup (cols : list Column) (a : TableAnalysis) :
  NoDup (date_columns a) ->
  NoDup (map col_name cols) ->
  (forall n, In n (date_columns a) -> ~ In n (map col_name cols)) ->
  NoDup (date_columns (fold_left analyze_column cols a)).
Proof.
  revert a. induction cols as [|col cols IH]; intros a Ha Hcols Hsep; simpl.
  - exact Ha.
  - inversion Hcols as [|x l Hnotin Hcols']. subst.
    assert (Hnew : ~ In (col_name col) (date_columns a)).
    { intros H. apply (Hsep _ H). now left. }
    assert (Hadd : NoDup (date_columns a ++ [col_name col])).
    { apply NoDup_app; [exact Ha | repeat constructor; auto |].
      intros n Hn [<- | []]. contradiction. }
    apply IH; [| exact Hcols' |].
    + rewrite date_columns_step, categorize_dates. cbv zeta.
      destruct (typed_date _), (timestamp_pattern _); auto.
      * destruct (mem _ _) eqn:Em; [exact Hadd|].
        assert (Hin : mem (col_name col) (date_columns a ++ [col_name col])
                      = true)
          by (apply mem_In, in_or_app; right; simpl; auto).
        congruence.
      * destruct (mem _ _) eqn:Em; [|exact Hadd].
        apply mem_In in Em. contradiction.
    + intros n Hn Hrest. apply date_columns_step_inv in Hn.
      destruct Hn as [Hn | [-> _]].
      * apply (Hsep _ Hn). now right.
      * contradiction.
Qed.

Lemma typed_category_lists_lemma (table_name : string) (schema : Schema) :
  numeric_columns (_analyze_table_schema table_name schema)
    = map col_name (filter numeric_col (schema_columns schema))
  /\ text_columns (_analyze_table_schema table_name schema)
      = map col_name (filter text_col (schema_columns schema)).
Proof.
  unfold _analyze_table_schema.
  rewrite (appended_names numeric_columns numeric_col numeric_columns_step).
  rewrite (appended_names text_columns text_col text_columns_step).
  split; reflexivity.
Qed.

(** X1: the type-based lists hold, in column order, the names of the
    columns taking the matching branch: numeric if the uppercased type
    mentions INT, REAL, FLOAT or NUMERIC; text if it is not numeric and
    mentions TEXT or CHAR; [primary_keys] the flagged columns.  The row
    count is copied and [likely_relationships] stays empty. *)
Theorem typed_category_lists (table_name : string) (schema : Schema) :
  numeric_columns (_analyze_table_schema table_name schema)
    = map col_name (filter numeric_col (schema_columns schema))
  /\ text_columns (_analyze_table_schema table_name schema)
      = map col_name (filter text_col (schema_columns schema))
  /\ primary_keys (_analyze_table_schema table_name schema)
      = map col_name (filter primary_key (schema_columns schema))
  /\ row_count (_analyze_table_schema table_name schema)
      = schema_row_count schema
  /\ likely_relationships (_analyze_table_schema table_name schema) = [].
Proof.
  unfold _analyze_table_schema.
  rewrite (appended_names numeric_columns numeric_col numeric_columns_step).
  rewrite (appended_names text_columns text_col text_columns_step).
  rewrite (appended_names primary_keys primary_key primary_keys_step).
  destruct (untouched_fold (schema_columns schema) (initial_analysis schema))
    as [-> ->].
  repeat split; reflexivity.
Qed.

(** X2: with distinct column names no name is listed both as numeric and
    as text. *)
Theorem numeric_and_text_disjoint (table_name : string) (schema : Schema)
    (n : string) :
  NoDup (map col_name (schema_columns schema)) ->
  In n (numeric_columns (_analyze_table_schema table_name schema)) ->
  ~ In n (text_columns (_analyze_table_schema table_name schema)).
Proof.
  unfold _analyze_table_schema. intros Hnd.
  rewrite (appended_names numeric_columns numeric_col numeric_columns_step).
  rewrite (appended_names text_columns text_col text_columns_step).
  simpl. rewrite !in_map_iff.
  intros (c1 & E1 & H1) (c2 & E2 & H2).
  apply filter_In in H1, H2. destruct H1 as [H1 N1], H2 as [H2 T2].
  assert (c1 = c2) by (apply (unique_by_name _ _ _ Hnd H1 H2); congruence).
  subst c2. unfold numeric_col in N1. unfold text_col in T2.
  rewrite N1 in T2. discriminate.
Qed.

(** The table [visits]: [id] and [updated] are numeric, none of them is
    text. *)
Lemma numeric_and_text_disjoint_witness :
  In "updated" (numeric_columns visits_analysis)
  /\ ~ In "updated" (text_columns visits_analysis).
Proof.
  assert (Hin : In "updated" (numeric_columns visits_analysis))
    by (simpl; auto).
  split; [exact Hin|].
  apply (numeric_and_text_disjoint "visits" visits_schema "updated");
    [|exact Hin].
  repeat (constructor; [simpl; intuition discriminate|]). constructor.
Defined.

(** X3: a name is in [date_columns] exactly when a column of that name
    reaches the DATE/TIME branch of the type test or matches the timestamp
    pattern; [has_timestamps] tells whether some column name matches the
    pattern. *)
Theorem date_columns_membership (table_name : string) (schema : Schema)
    (n : string) :
  (In n (date_columns (_analyze_table_schema table_name schema)) <->
   exists col, In col (schema_columns schema) /\ col_name col = n /\
               (date_col col = true \/ timestamp_pattern n = true))
  /\ has_timestamps (_analyze_table_schema table_name schema)
      = existsb (fun col => timestamp_pattern (col_name col))
                (schema_columns schema).
Proof.
  unfold _analyze_table_schema. split.
  - split.
    + intros H. apply date_columns_fold_inv in H.
      destruct H as [[] | (c & Hc & Hn & Hk)].
      exists c. rewrite <- Hn. auto.
    + intros (c & Hc & <- & [Hk | Hk]).
      * now apply date_columns_fold_typed.
      * now apply date_columns_fold_fires.
  - now rewrite has_timestamps_fold.
Qed.

(** X4: with distinct column names [date_columns] lists no name twice,
    although a column can enter it by its type and by its name. *)
Theorem date_columns_nodup (table_name : string) (schema : Schema) :
  NoDup (map col_name (schema_columns schema)) ->
  NoDup (date_columns (_analyze_table_schema table_name schema)).
Proof.
  intros Hnd. unfold _analyze_table_schema.
  apply date_columns_fold_nodup; [constructor | exact Hnd |].
  intros n [].
Qed.

(** The table [visits]: [day] enters by type, [updated] and
    [created_at] by name. *)
Lemma date_columns_nodup_witness :
  date_columns visits_analysis = ["day"; "updated"; "created_at"]
  /\ NoDup (date_columns visits_analysis).
Proof.
  split; [reflexivity|].
  apply (date_columns_nodup "visits" visits_schema).
  repeat (constructor; [simpl; intuition discriminate|]). constructor.
Defined.

(** X5: with distinct column names [column_types] maps every column, in
    column order, to its declared type in upper case. *)
Theorem column_types_of_distinct_columns (table_name : string)
    (schema : Schema) :
  NoDup (map col_name (schema_columns schema)) ->
  column_types (_analyze_table_schema table_name schema)
    = map type_entry (schema_columns schema)
  /\ forall col, In col (schema_columns schema) ->
       get (col_name col) (column_types (_analyze_table_schema table_name schema))
       = Some (upper (col_type col)).
Proof.
  intros Hnd.
  assert (E : column_types (_analyze_table_schema table_name schema)
              = map type_entry (schema_columns schema)).
  { unfold _analyze_table_schema. now rewrite column_types_fold. }
  split; [exact E|]. rewrite E. clear E.
  induction (schema_columns schema) as [|c cols IH]; intros col Hin.
  - contradiction.
  - inversion Hnd as [|x l Hnotin Hnd']. subst. simpl.
    destruct (String.eqb (col_name col) (col_name c)) eqn:Ec.
    + apply String.eqb_eq in Ec. destruct Hin as [-> | Hin]; [reflexivity|].
      elim Hnotin. rewrite <- Ec. now apply in_map.
    + destruct Hin as [-> | Hin].
      * rewrite String.eqb_refl in Ec. discriminate.
      * now apply IH.
Qed.

(** The table [visits], declared with lower-case types. *)
Lemma column_types_of_distinct_columns_witness :
  column_types visits_analysis
  = [("id", "INTEGER"); ("day", "DATE"); ("updated", "INTEGER");
     ("created_at", "VARCHAR(20)"); ("payload", "BLOB")].
Proof.
  refine (eq_trans (proj1 (column_types_of_distinct_columns
                             "visits" visits_schema _)) eq_refl).
  repeat (constructor; [simpl; intuition discriminate|]). constructor.
Defined.

End ClassifierFacts.


(** ** More on query suggestion *)

Module SuggestFacts.

Import Examples Suggest.

Lemma flat_map_if {A B} (p : A -> bool) (f : A -> B) (l : list A) :
  flat_map (fun x => if p x then [f x] else []) l = map f (filter p l).
Proof.
  induction l as [|x l IH]; [reflexivity|].
  cbn [flat_map filter]. destruct (p x); cbn [map app]; now rewrite IH.
Qed.

Lemma text_queries_filter table_name a :
  text_queries table_name a =
  map (popular_query table_name)
      (filter popular_column (firstn 2 (text_columns a))).
Proof.
  apply (flat_map_if popular_column (popular_query table_name)).
Qed.

Lemma family_of_numeric (family : string) table_name a :
  (forall c, named_with family (stats_query table_name c) = false) ->
  filter (named_with family) (numeric_queries table_name a) = [].
Proof.
  intros H. apply filter_none. intros q Hq.
  rewrite numeric_queries_filter in Hq. apply in_map_iff in Hq.
  destruct Hq as (c & <- & _). apply H.
Qed.

Lemma family_of_text (family : string) table_name a :
  (forall c, named_with family (popular_query table_name c) = false) ->
  filter (named_with family) (text_queries table_name a) = [].
Proof.
  intros H. apply filter_none. intros q Hq.
  apply text_queries_shape in Hq. destruct Hq as (c & ->). apply H.
Qed.

Lemma family_of_basic (family : string) table_name a :
  named_with family (sample_query table_name) = false ->
  named_with family (count_query table_name) = false ->
  filter (named_with family) (basic_queries table_name a) = [].
Proof.
  intros H1 H2. unfold basic_queries.
  destruct (row_count a >? 0)%Z; simpl; [now rewrite H1, H2 | reflexivity].
Qed.

Lemma length_basic table_name a :
  List.length (basic_queries table_name a) <= 2.
Proof.
  unfold basic_queries. destruct (row_count a >? 0)%Z; simpl; lia.
Qed.

Lemma length_date table_name a :
  List.length (date_queries table_name a) <= 2.
Proof.
  unfold date_queries. destruct (date_columns a); simpl; lia.
Qed.

Lemma length_scanned {A B} (f : A -> B) (p : A -> bool) (n : nat)
    (l : list A) :
  List.length (map f (filter p (firstn n l))) <= n.
Proof.
  rewrite length_map.
  etransitivity; [apply filter_length_le | apply firstn_le_length].
Qed.

(** X6: a table never gets more than nine candidates: two basic, two
    date-based, three statistics and two frequency queries at most. *)
Theorem at_most_nine_candidates (table_name : string) (a : TableAnalysis) :
  List.length (_generate_table_queries table_name a) <= 9.
Proof.
  unfold _generate_table_queries. rewrite !length_app.
  pose proof (length_basic table_name a).
  pose proof (length_date table_name a).
  rewrite numeric_queries_filter, text_queries_filter.
  pose proof (length_scanned (stats_query table_name) not_id_column 3
                (numeric_columns a)).
  pose proof (length_scanned (popular_query table_name) popular_column 2
                (text_columns a)).
  lia.
Qed.



(** X8: only the first two text columns are looked at for frequency
    queries: the [popular_*] candidates are those of the first two text
    columns whose lowercased name contains title, name, description or
    summary; a matching third text column gets none. *)
Theorem popular_candidates_first_two (table_name : string)
    (a : TableAnalysis) :
  filter (named_with "popular_") (_generate_table_queries table_name a)
    = map (popular_query table_name)
          (filter popular_column (firstn 2 (text_columns a)))
  /\ List.length (filter (named_with "popular_")
                     (_generate_table_queries table_name a)) <= 2.
Proof.
  assert (E : filter (named_with "popular_")
                (_generate_table_queries table_name a)
              = map (popular_query table_name)
                    (filter popular_column (firstn 2 (text_columns a)))).
  { unfold _generate_table_queries.
    rewrite !filter_app, family_of_basic, family_of_numeric by reflexivity.
    assert (Hd : filter (named_with "popular_") (date_queries table_name a)
                 = []).
    { unfold date_queries. destruct (date_columns a); reflexivity. }
    rewrite Hd. simpl. rewrite text_queries_filter.
    apply filter_all. intros q Hq. apply in_map_iff in Hq.
    destruct Hq as (c & <- & _). apply (prefix_append "popular_"). }
  split; [exact E|]. rewrite E. apply length_scanned.
Qed.

Lemma stats_name_injective table_name c1 c2 :
  name (stats_query table_name c1) = name (stats_query table_name c2) ->
  c1 = c2.
Proof.
  simpl. intros H. injection H as H.
  now apply concat_cancel_l, (concat_cancel_l "_") in H.
Qed.

Lemma popular_name_injective table_name c1 c2 :
  name (popular_query table_name c1) = name (popular_query table_name c2) ->
  c1 = c2.
Proof.
  simpl. intros H. injection H as H.
  now apply (concat_cancel_r ("_" +++ table_name)) in H.
Qed.

(** The names of the four blocks, one block at a time. *)
Lemma names_of_basic table_name a n :
  In n (map name (basic_queries table_name a)) ->
  n = "sample_" +++ table_name \/ n = "count_" +++ table_name.
Proof.
  unfold basic_queries. destruct (row_count a >? 0)%Z; simpl; intuition auto.
Qed.

Lemma names_of_date table_name a n :
  In n (map name (date_queries table_name a)) ->
  n = "recent_" +++ table_name \/ n = "date_range_" +++ table_name.
Proof.
  unfold date_queries. destruct (date_columns a); simpl; intuition auto.
Qed.

Lemma names_of_numeric table_name a n :
  In n (map name (numeric_queries table_name a)) ->
  exists c, n = "stats_" +++ table_name +++ "_" +++ c.
Proof.
  rewrite numeric_queries_filter, map_map, in_map_iff.
  intros (c & <- & _). now exists c.
Qed.

Lemma names_of_text table_name a n :
  In n (map name (text_queries table_name a)) ->
  exists c, n = "popular_" +++ c +++ "_" +++ table_name.
Proof.
  rewrite text_queries_filter, map_map, in_map_iff.
  intros (c & <- & _). now exists c.
Qed.

Lemma names_nodup (table_name : string) (a : TableAnalysis) :
  NoDup (numeric_columns a) -> NoDup (text_columns a) ->
  NoDup (map name (_generate_table_queries table_name a)).
Proof.
  intros Hnum Htext. unfold _generate_table_queries. rewrite !map_app.
  assert (Hb : NoDup (map name (basic_queries table_name a))).
  { unfold basic_queries. destruct (row_count a >? 0)%Z; simpl.
    - repeat constructor; simpl; intuition discriminate.
    - constructor. }
  assert (Hd : NoDup (map name (date_queries table_name a))).
  { unfold date_queries. destruct (date_columns a); simpl.
    - constructor.
    - repeat constructor; simpl; intuition discriminate. }
  assert (Hn : NoDup (map name (numeric_queries table_name a))).
  { rewrite numeric_queries_filter, map_map.
    apply NoDup_map_injective.
    - apply stats_name_injective.
    - now apply NoDup_filter, NoDup_firstn. }
  assert (Ht : NoDup (map name (text_queries table_name a))).
  { rewrite text_queries_filter, map_map.
    apply NoDup_map_injective.
    - apply popular_name_injective.
    - now apply NoDup_filter, NoDup_firstn. }
  apply NoDup_app; [exact Hb | |].
  - apply NoDup_app; [exact Hd | |].
    + apply NoDup_app; [exact Hn | exact Ht |].
      intros n H1 H2. apply names_of_numeric in H1. apply names_of_text in H2.
      destruct H1 as (c1 & ->), H2 as (c2 & H2). discriminate H2.
    + intros n H1 H2. apply names_of_date in H1. apply in_app_or in H2.
      destruct H2 as [H2 | H2];
        [apply names_of_numeric in H2 | apply names_of_text in H2];
        destruct H2 as (c & ->); destruct H1 as [H1 | H1]; discriminate H1.
  - intros n H1 H2. apply names_of_basic in H1.
    apply in_app_or in H2. destruct H2 as [H2 | H2].
    + apply names_of_date in H2.
      destruct H1 as [-> | ->], H2 as [H2 | H2]; discriminate H2.
    + apply in_app_or in H2.
      destruct H2 as [H2 | H2];
        [apply names_of_numeric in H2 | apply names_of_text in H2];
        destruct H2 as (c & ->); destruct H1 as [H1 | H1]; discriminate H1.
Qed.

(** X9: for a table with distinct column names, no two suggested
    queries of its classification share a name. *)
Theorem candidate_names_are_distinct (table_name : string) (schema : Schema) :
  NoDup (map col_name (schema_columns schema)) ->
  NoDup (map name
           (_generate_table_queries table_name
              (_analyze_table_schema table_name schema))).
Proof.
  intros Hnd.
  destruct (ClassifierFacts.typed_category_lists_lemma table_name schema)
    as (En & Et).
  apply names_nodup.
  - rewrite En. now apply NoDup_map_filter.
  - rewrite Et. now apply NoDup_map_filter.
Qed.

(** The table [events], with three columns and four candidates. *)
Lemma candidate_names_are_distinct_witness :
  map name (_generate_table_queries "events" events_analysis)
    = ["recent_events"; "date_range_events"; "stats_events_sample_rate";
       "popular_name_events"]
  /\ NoDup (map name (_generate_table_queries "events"
                        (_analyze_table_schema "events" events_schema))).
Proof.
  split; [reflexivity|].
  apply (candidate_names_are_distinct "events" events_schema).
  repeat (constructor; [simpl; intuition discriminate|]). constructor.
Defined.

End SuggestFacts.


(** ** More on insights *)

Module InsightFacts.

Import Examples.

Lemma insert_desc_perm (x : string * Z) (l : list (string * Z)) :
  Permutation (insert_desc x l) (x :: l).
Proof.
  induction l as [|y l IH]; simpl.
  - reflexivity.
  - destruct (snd y <=? snd x)%Z; [reflexivity|].
    rewrite IH. apply perm_swap.
Qed.

Lemma sorted_desc_perm (l : list (string * Z)) :
  Permutation (sorted_desc l) l.
Proof.
  induction l as [|x l IH]; simpl.
  - constructor.
  - rewrite insert_desc_perm. now constructor.
Qed.

Lemma insert_desc_sorted (x : string * Z) (l : list (string * Z)) :
  StronglySorted count_desc l -> StronglySorted count_desc (insert_desc x l).
Proof.
  induction 1 as [|y l Hs IH Hy]; simpl.
  - repeat constructor.
  - destruct (snd y <=? snd x)%Z eqn:E.
    + apply Z.leb_le in E. constructor; [now constructor|].
      constructor; [exact E|].
      eapply Forall_impl; [|exact Hy]. unfold count_desc. intros z Hz. lia.
    + apply Z.leb_gt in E. constructor; [exact IH|].
      apply Forall_forall. intros z Hz.
      apply (Permutation_in _ (insert_desc_perm x l)) in Hz.
      destruct Hz as [<- | Hz]; [unfold count_desc; lia|].
      rewrite Forall_forall in Hy. now apply Hy.
Qed.

Lemma sorted_desc_sorted (l : list (string * Z)) :
  StronglySorted count_desc (sorted_desc l).
Proof.
  induction l as [|x l IH]; simpl.
  - constructor.
  - now apply insert_desc_sorted.
Qed.

Lemma insert_desc_stable (k : Z) (x : string * Z) (l : list (string * Z)) :
  filter (fun e => (snd e =? k)%Z) (insert_desc x l)
  = filter (fun e => (snd e =? k)%Z) (x :: l).
Proof.
  induction l as [|y l IH]; [reflexivity|].
  cbn [insert_desc]. destruct (snd y <=? snd x)%Z eqn:E; [reflexivity|].
  apply Z.leb_gt in E. cbn [filter] in *. rewrite IH.
  destruct (snd x =? k)%Z eqn:Ex, (snd y =? k)%Z eqn:Ey; try reflexivity.
  apply Z.eqb_eq in Ex, Ey. lia.
Qed.

Lemma sorted_desc_stable (k : Z) (l : list (string * Z)) :
  filter (fun e => (snd e =? k)%Z) (sorted_desc l)
  = filter (fun e => (snd e =? k)%Z) l.
Proof.
  induction l as [|x l IH]; [reflexivity|].
  cbn [sorted_desc fold_right]. rewrite insert_desc_stable.
  cbn [filter]. fold (sorted_desc l). now rewrite IH.
Qed.

Lemma sorted_desc_head (l rest : list (string * Z)) (x y : string * Z) :
  sorted_desc l = x :: rest -> In y l -> (snd y <= snd x)%Z.
Proof.
  intros E Hy.
  apply (Permutation_in _ (Permutation_sym (sorted_desc_perm l))) in Hy.
  pose proof (sorted_desc_sorted l) as Hs. rewrite E in Hs, Hy.
  apply StronglySorted_inv in Hs. destruct Hs as [_ Hall].
  destruct Hy as [<- | Hy]; [lia|].
  rewrite Forall_forall in Hall. now apply Hall.
Qed.

Lemma sorted_front (l tl : list (string * Z)) :
  StronglySorted count_desc (l ++ tl) -> StronglySorted count_desc l.
Proof.
  induction l as [|x l IH]; intros H; [constructor|].
  simpl in H. apply StronglySorted_inv in H. destruct H as [H Hall].
  constructor; [now apply IH|].
  apply Forall_app in Hall. tauto.
Qed.

Lemma sorted_front_back (l tl : list (string * Z)) (y e : string * Z) :
  StronglySorted count_desc (l ++ tl) -> In y l -> In e tl ->
  (snd e <= snd y)%Z.
Proof.
  induction l as [|x l IH]; intros H Hy He; [contradiction|].
  simpl in H. apply StronglySorted_inv in H. destruct H as [H Hall].
  destruct Hy as [-> | Hy]; [|now apply IH].
  rewrite Forall_forall in Hall. apply Hall, in_or_app. now right.
Qed.

Lemma sorted_filter (p : string * Z -> bool) (l : list (string * Z)) :
  StronglySorted count_desc l -> StronglySorted count_desc (filter p l).
Proof.
  induction 1 as [|x l Hs IH Hall]; simpl; [constructor|].
  destruct (p x); [|exact IH].
  constructor; [exact IH|].
  rewrite Forall_forall in *. intros z Hz. apply filter_In in Hz.
  now apply Hall.
Qed.

(** The function, one line at a time. *)
Lemma insights_cases (ta : dict TableAnalysis) :
  _generate_database_insights ta =
  summary_line (List.length ta) (sum_row_counts ta)
  :: (if existsb (fun e => (snd e >? 0)%Z) (table_counts ta)
      then ["Largest tables: "
            +++ join ", " (map format_count (largest_listed ta))]
      else [])
  ++ match relationship_edges ta with
     | [] => []
     | _ :: _ =>
         ["Potential relationships: "
          +++ join ", " (map format_edge (firstn 3 (relationship_edges ta)))]
     end.
Proof.
  unfold _generate_database_insights. cbn [app]. f_equal. f_equal.
  - change (map (fun '(name, analysis) => (name, row_count analysis)) ta)
      with (table_counts ta).
    unfold largest_listed.
    destruct (sorted_desc (table_counts ta)) as [|[n0 c0] rest] eqn:E.
    + apply (f_equal (@List.length _)) in E.
      rewrite (Permutation_length (sorted_desc_perm _)) in E.
      destruct (table_counts ta); [reflexivity | discriminate].
    + cbn [firstn]. destruct (c0 >? 0)%Z eqn:Ec.
      * assert (Hex : existsb (fun e => (snd e >? 0)%Z) (table_counts ta)
                      = true).
        { apply existsb_exists. exists (n0, c0). split; [|exact Ec].
          apply (Permutation_in _ (sorted_desc_perm _)).
          rewrite E. now left. }
        rewrite Hex. reflexivity.
      * assert (Hex : existsb (fun e => (snd e >? 0)%Z) (table_counts ta)
                      = false).
        { apply not_true_is_false. intros H. apply existsb_exists in H.
          destruct H as (y & Hy & Hpos).
          pose proof (sorted_desc_head _ _ _ _ E Hy) as Hle. simpl in Hle.
          apply Z.gtb_lt in Hpos.
          assert (c0 > 0)%Z by lia.
          apply Z.gt_lt, Z.gtb_lt in H. congruence. }
        rewrite Hex. reflexivity.
  - unfold potential_relationships.
    destruct (relationship_edges ta) as [|e es]; [reflexivity|].
    cbn [map]. now rewrite <- firstn_map.
Qed.

(** X10: the insights carry a [Potential relationships] line exactly when
    an edge is inferred, and the line shows the first three edges only, in
    the order of inference. *)
Theorem relationships_insight (ta : dict TableAnalysis) (line : string) :
  (In line (_generate_database_insights ta) /\
   String.prefix "Potential relationships: " line = true)
  <->
  (relationship_edges ta <> [] /\
   line = "Potential relationships: "
          +++ join ", " (map format_edge (firstn 3 (relationship_edges ta)))).
Proof.
  rewrite insights_cases. split.
  - intros [Hin Hp]. destruct Hin as [<- | Hin]; [discriminate Hp|].
    apply in_app_or in Hin. destruct Hin as [Hin | Hin].
    + destruct (existsb _ _); [|contradiction].
      destruct Hin as [<- | []]. discriminate Hp.
    + destruct (relationship_edges ta); [contradiction|].
      destruct Hin as [<- | []]. split; [discriminate | reflexivity].
  - intros [Hne ->]. split; [|apply (prefix_append "Potential relationships: ")].
    right. apply in_or_app. right.
    destruct (relationship_edges ta); [congruence | now left].
Qed.

(** X11: the insights carry a [Largest tables] line exactly when some
    table has a positive row count; the line names the positive entries
    among the three largest tables. *)
Theorem largest_tables_insight (ta : dict TableAnalysis) (line : string) :
  (In line (_generate_database_insights ta) /\
   String.prefix "Largest tables: " line = true)
  <->
  ((exists table a, In (table, a) ta /\ (row_count a > 0)%Z) /\
   line = "Largest tables: "
          +++ join ", " (map format_count (largest_listed ta))).
Proof.
  assert (Hex : existsb (fun e => (snd e >? 0)%Z) (table_counts ta) = true
                <-> exists table a, In (table, a) ta /\ (row_count a > 0)%Z).
  { rewrite existsb_exists. unfold table_counts. split.
    - intros ([n c] & Hin & Hpos). apply in_map_iff in Hin.
      destruct Hin as ([n' a] & [= <- <-] & Hin).
      exists n', a. split; [exact Hin|]. now apply Z.lt_gt, Z.gtb_lt.
    - intros (n & a & Hin & Hpos). exists (n, row_count a). split.
      + apply in_map_iff. now exists (n, a).
      + now apply Z.gtb_lt, Z.gt_lt. }
  rewrite insights_cases. split.
  - intros [Hin Hp]. destruct Hin as [<- | Hin]; [discriminate Hp|].
    apply in_app_or in Hin. destruct Hin as [Hin | Hin].
    + destruct (existsb _ _) eqn:E; [|contradiction].
      destruct Hin as [<- | []]. split; [now apply Hex | reflexivity].
    + destruct (relationship_edges ta); [contradiction|].
      destruct Hin as [<- | []]. discriminate Hp.
  - intros [Hpos ->]. split; [|apply (prefix_append "Largest tables: ")].
    apply Hex in Hpos. rewrite Hpos. right. now left.
Qed.

(** X12: the tables listed as largest are at most three tables of the
    database with a positive row count, in non-increasing order of row
    count; no table left out has more rows than a listed one, and tables
    with equal row counts are sorted in their order in the database. *)
Theorem largest_listed_top_three (ta : dict TableAnalysis) :
  List.length (largest_listed ta) <= 3
  /\ (forall e, In e (largest_listed ta) ->
                In e (table_counts ta) /\ (snd e > 0)%Z)
  /\ StronglySorted count_desc (largest_listed ta)
  /\ (forall e y, In e (table_counts ta) -> ~ In e (largest_listed ta) ->
                  In y (largest_listed ta) -> (snd e <= snd y)%Z)
  /\ (forall k, filter (fun e => (snd e =? k)%Z) (sorted_desc (table_counts ta))
                = filter (fun e => (snd e =? k)%Z) (table_counts ta)).
Proof.
  unfold largest_listed.
  set (sorted := sorted_desc (table_counts ta)).
  assert (Hsorted : StronglySorted count_desc
                      (firstn 3 sorted ++ skipn 3 sorted)).
  { rewrite firstn_skipn. apply sorted_desc_sorted. }
  assert (Hpos : forall e : string * Z,
             (let '(_, count) := e in (count >? 0)%Z) = true
             <-> (snd e > 0)%Z).
  { intros [n c]. simpl. rewrite Z.gtb_lt. lia. }
  split.
  { etransitivity; [apply filter_length_le | apply firstn_le_length]. }
  split.
  { intros e He. apply filter_In in He. destruct He as [He Hp]. split.
    - apply (Permutation_in _ (sorted_desc_perm _)).
      fold sorted. rewrite <- (firstn_skipn 3 sorted).
      apply in_or_app. now left.
    - now apply Hpos. }
  split.
  { apply sorted_filter. now apply (sorted_front _ (skipn 3 sorted)). }
  split.
  { intros e y He Hnot Hy. apply filter_In in Hy. destruct Hy as [Hy Hyp].
    apply Hpos in Hyp.
    apply (Permutation_in _ (Permutation_sym (sorted_desc_perm _))) in He.
    fold sorted in He. rewrite <- (firstn_skipn 3 sorted) in He.
    apply in_app_or in He. destruct He as [He | He].
    - assert (Hle : ~ (snd e > 0)%Z).
      { intros H. apply Hnot, filter_In. split; [exact He | now apply Hpos]. }
      lia.
    - exact (sorted_front_back _ _ _ _ Hsorted Hy He). }
  intros k. apply sorted_desc_stable.
Qed.

End InsightFacts.


(** ** More on relationship inference *)

Module RelationshipFacts.

Import Examples Relationships.

Lemma prefix_iff (a b : string) :
  String.prefix a b = true <-> exists u, b = a +++ u.
Proof.
  split.
  - revert b. induction a as [|c a IH]; intros b H.
    + now exists b.
    + destruct b as [|d b]; simpl in H; [discriminate|].
      destruct (ascii_dec c d) as [<- | _]; [|discriminate].
      destruct (IH b H) as (u & ->). now exists u.
  - intros (u & ->). apply prefix_append.
Qed.

Lemma concat_assoc (a b c : string) : (a +++ b) +++ c = a +++ b +++ c.
Proof. induction a as [|x a IH]; simpl; [reflexivity | now rewrite IH]. Qed.

Lemma rev_string_concat (a b : string) :
  rev_string (a +++ b) = rev_string b +++ rev_string a.
Proof.
  induction a as [|x a IH]; simpl.
  - now rewrite concat_empty_r.
  - now rewrite IH, concat_assoc.
Qed.

Lemma rev_string_involutive (a : string) : rev_string (rev_string a) = a.
Proof.
  induction a as [|x a IH]; simpl; [reflexivity|].
  now rewrite rev_string_concat, IH.
Qed.

(** [sub in s] holds exactly when [s] is [sub] with something before and
    after it. *)
Lemma contains_iff (sub s : string) :
  contains sub s = true <-> exists pre post, s = pre +++ sub +++ post.
Proof.
  split.
  - induction s as [|c s IH]; cbn [contains]; intros H.
    + rewrite orb_false_r in H. apply prefix_iff in H.
      destruct H as (u & ->). now exists "", u.
    + apply orb_prop in H. destruct H as [H | H].
      * apply (prefix_iff sub (String c s)) in H.
        destruct H as (u & ->). now exists "", u.
      * destruct (IH H) as (pre & post & ->). now exists (String c pre), post.
  - assert (Hunfold : forall t, contains sub t
              = String.prefix sub t
                || match t with
                   | "" => false
                   | String _ t' => contains sub t'
                   end) by (intros []; reflexivity).
    intros (pre & post & ->). induction pre as [|c pre IH].
    + cbn [append]. now rewrite Hunfold, prefix_append.
    + cbn [append]. rewrite Hunfold, IH. apply orb_true_r.
Qed.

Lemma endswith_iff (s p : string) :
  endswith s p = true <-> exists pre, s = pre +++ p.
Proof.
  unfold endswith. rewrite prefix_iff. split.
  - intros (u & E). exists (rev_string u).
    apply (f_equal rev_string) in E.
    now rewrite rev_string_involutive, rev_string_concat,
      rev_string_involutive in E.
  - intros (pre & ->). exists (rev_string pre). apply rev_string_concat.
Qed.

Lemma fk_pattern_contains (col_name other_table : string) :
  fk_pattern col_name other_table
    = contains (lower other_table) (lower col_name).
Proof.
  unfold fk_pattern, startswith.
  destruct (contains _ _) eqn:Ec; [apply orb_true_r|].
  rewrite orb_false_r. apply not_true_is_false. intros H.
  apply orb_prop in H.
  assert (Hc : contains (lower other_table) (lower col_name) = true);
    [|congruence].
  apply contains_iff. destruct H as [H | H].
  - apply prefix_iff in H. destruct H as (u & ->). now exists "", u.
  - apply endswith_iff in H. destruct H as (pre & ->).
    exists pre, "". now rewrite concat_empty_r.
Qed.

(** X13: the three name tests of the foreign-key pattern amount to one:
    the lowercased table name occurs in the lowercased column name. *)
Theorem fk_pattern_is_containment (col_name other_table : string) :
  fk_pattern col_name other_table
    = contains (lower other_table) (lower col_name)
  /\ (fk_pattern col_name other_table = true <->
       exists pre post,
         lower col_name = pre +++ lower other_table +++ post).
Proof.
  pose proof (fk_pattern_contains col_name other_table) as E.
  split; [exact E|]. rewrite E. apply contains_iff.
Qed.

(** X14: the strings of candidate relationships are exactly the
    [table.column -> other] with [table] in the map, [column] a key of its
    [column_types], [other] a different table of the map, and the
    lowercased name of [other] occurring in the lowercased [column]. *)
Theorem potential_relationships_exactly (ta : dict TableAnalysis)
    (line : string) :
  In line (potential_relationships ta) <->
  exists table a column other,
    In (table, a) ta /\
    In column (keys (column_types a)) /\
    In other (keys ta) /\
    other <> table /\
    contains (lower other) (lower column) = true /\
    line = table +++ "." +++ column +++ " -> " +++ other.
Proof.
  unfold potential_relationships. rewrite in_map_iff. split.
  - intros ([t c o] & <- & He). apply edges_spec in He. simpl in He.
    destruct He as (a & Hta & Hc & Ho & Hne & Hfk).
    exists t, a, c, o. repeat split; auto.
    now rewrite <- fk_pattern_contains.
  - intros (t & a & c & o & Hta & Hc & Ho & Hne & Hfk & ->).
    exists (mkEdge t c o). split; [reflexivity|].
    apply edges_spec. exists a. simpl. repeat split; auto.
    now rewrite fk_pattern_contains.
Qed.

End RelationshipFacts.


(** ** More on the analysis pipeline *)

Module PipelineFacts.

Import Examples Pipeline.

Section Driver.

Variable get_table_schema : string -> SchemaResult.

Lemma keys_fold (l : list string) (acc : dict TableAnalysis * list Query) :
  NoDup (keys (fst acc) ++ l) ->
  keys (fst (fold_left (analyze_table get_table_schema) l acc))
  = keys (fst acc) ++ filter (introspected get_table_schema) l.
Proof.
  revert acc. induction l as [|t l IH]; intros acc Hnd.
  - simpl. now rewrite app_nil_r.
  - assert (Hfresh : ~ In t (keys (fst acc))).
    { apply NoDup_remove_2 in Hnd. intros H. apply Hnd, in_or_app. now left. }
    cbn [fold_left filter].
    destruct (get_table_schema t) as [schema | message] eqn:Et.
    + assert (Hi : introspected get_table_schema t = true)
        by (unfold introspected; now rewrite Et).
      assert (Hstep : analyze_table get_table_schema acc t
                      = (fst acc ++ [(t, _analyze_table_schema t schema)],
                         snd acc ++ _generate_table_queries t
                                      (_analyze_table_schema t schema))).
      { unfold analyze_table. rewrite Et.
        now rewrite ClassifierFacts.set_fresh. }
      assert (Hkeys : keys (fst acc ++ [(t, _analyze_table_schema t schema)])
                      = keys (fst acc) ++ [t])
        by (unfold keys; now rewrite map_app).
      rewrite Hi, Hstep, IH; cbn [fst]; rewrite Hkeys, <- app_assoc;
        [reflexivity | exact Hnd].
    + assert (Hi : introspected get_table_schema t = false)
        by (unfold introspected; now rewrite Et).
      assert (Hstep : analyze_table get_table_schema acc t = acc)
        by (unfold analyze_table; now rewrite Et).
      rewrite Hi, Hstep. apply IH. now apply NoDup_remove_1 in Hnd.
Qed.

Lemma fold_all_failing (l : list string)
    (acc : dict TableAnalysis * list Query) :
  (forall t, In t l -> introspected get_table_schema t = false) ->
  fold_left (analyze_table get_table_schema) l acc = acc.
Proof.
  revert acc. induction l as [|t l IH]; intros acc H; simpl; [reflexivity|].
  assert (Ht : introspected get_table_schema t = false)
    by (apply H; now left).
  assert (Hstep : analyze_table get_table_schema acc t = acc).
  { unfold introspected in Ht. unfold analyze_table.
    destruct (get_table_schema t); [discriminate | reflexivity]. }
  rewrite Hstep. apply IH. intros x Hx. apply H. now right.
Qed.

End Driver.

(** X15: the suggested queries of a report are the queries of its tables
    in the order of the table list, and with distinct table names the
    per-table map has, in that order, exactly the tables whose
    introspection succeeded. *)
Theorem report_follows_table_list (db_path : string)
    (table_list : list string) (get_table_schema : string -> SchemaResult) :
  database_path (analyze_database_schema db_path table_list get_table_schema)
    = db_path
  /\ suggested_queries
       (analyze_database_schema db_path table_list get_table_schema)
      = flat_map (table_queries get_table_schema) table_list
  /\ (NoDup table_list ->
       keys (tables (analyze_database_schema db_path table_list
                       get_table_schema))
       = filter (introspected get_table_schema) table_list).
Proof.
  destruct table_list as [|t ts].
  - repeat split; reflexivity.
  - unfold analyze_database_schema.
    pose proof (queries_fold get_table_schema (t :: ts) ([], [])) as Hq.
    pose proof (keys_fold get_table_schema (t :: ts) ([], [])) as Hk.
    fold (analyze_tables get_table_schema (t :: ts)) in Hq, Hk.
    destruct (analyze_tables get_table_schema (t :: ts)) as [tbls queries].
    simpl in *. repeat split; auto.
Qed.

(** The blog database with the failing table [sessions] in the list. *)
Lemma report_follows_table_list_witness :
  keys (tables broken_report) = ["posts"; "users"]
  /\ List.length (suggested_queries broken_report) = 6.
Proof.
  destruct (report_follows_table_list "blog.db" ["posts"; "sessions"; "users"]
              blog_db) as (_ & Hq & Hk).
  split.
  - refine (eq_trans (Hk _) eq_refl).
    repeat (constructor; [simpl; intuition discriminate|]). constructor.
  - exact (eq_trans (f_equal (@List.length Query) Hq) eq_refl).
Defined.

(** X16: when the table list is not empty but no table can be
    introspected, the report has no table and no query, and its insights
    are the single line telling of 0 tables and 0 rows. *)
Theorem all_tables_failing (db_path : string) (table : string)
    (others : list string) (get_table_schema : string -> SchemaResult) :
  (forall t, In t (table :: others) ->
             introspected get_table_schema t = false) ->
  tables (analyze_database_schema db_path (table :: others) get_table_schema)
    = []
  /\ suggested_queries
       (analyze_database_schema db_path (table :: others) get_table_schema)
      = []
  /\ insights
       (analyze_database_schema db_path (table :: others) get_table_schema)
      = ["Database contains 0 tables with 0 total rows"].
Proof.
  intros Hfail. unfold analyze_database_schema, analyze_tables.
  rewrite (fold_all_failing get_table_schema _ _ Hfail).
  repeat split; reflexivity.
Qed.

(** A database whose two listed tables both fail. *)
Lemma all_tables_failing_witness :
  tables locked_report = []
  /\ suggested_queries locked_report = []
  /\ insights locked_report
      = ["Database contains 0 tables with 0 total rows"].
Proof.
  apply (all_tables_failing "locked.db" "posts" ["users"] locked_db).
  intros t _. reflexivity.
Defined.

End PipelineFacts.


(** ** More on text rendering *)

Module RenderingFacts.

Import Examples Rendering.

Lemma length_join (sep : string) (l : list string) :
  String.length (join sep l)
  = list_sum (map String.length l)
    + String.length sep * (List.length l - 1).
Proof.
  induction l as [|x l IH]; [simpl; lia|].
  destruct l as [|y l].
  - simpl. lia.
  - change (join sep (x :: y :: l)) with (x +++ sep +++ join sep (y :: l)).
    rewrite !length_concat, IH. cbn [map list_sum fold_right List.length].
    rewrite !Nat.sub_succ, !Nat.sub_0_r, (Nat.mul_succ_r _ (List.length l)).
    lia.
Qed.

Lemma take_all (n : nat) (s : string) : String.length s <= n -> take n s = s.
Proof.
  revert s. induction n as [|n IH]; intros [|c s]; simpl; intros H;
    try reflexivity; try lia.
  rewrite IH; [reflexivity | lia].
Qed.

Section Cells.

Variable value : Type.
Variable str : value -> string.

Lemma col_width_at_most_30 (results : list (Row value)) (col : string) :
  col_width str results col <= 30.
Proof. unfold col_width. lia. Qed.

Lemma col_width_covers_header (results : list (Row value)) (col : string) :
  String.length col <= 30 -> String.length col <= col_width str results col.
Proof. unfold col_width. lia. Qed.

Lemma col_width_covers_sample (results : list (Row value)) (row : Row value)
    (col : string) :
  In row (firstn 20 results) -> String.length (cell str row col) <= 30 ->
  String.length (cell str row col) <= col_width str results col.
Proof.
  intros Hin Hlen. unfold col_width.
  assert (H : String.length (cell str row col)
              <= max_of (map (fun r => String.length (cell str r col))
                             (firstn 20 results))).
  { apply max_of_upper.
    apply (in_map (fun r => String.length (cell str r col))). exact Hin. }
  lia.
Qed.

Lemma render_row_length (results : list (Row value)) (columns : list string)
    (row : Row value) :
  String.length (render_row str results columns row)
  = line_width str results columns.
Proof.
  unfold render_row, line_width. rewrite length_join, length_map, map_map.
  f_equal. f_equal. apply map_ext. intros col. apply length_render_cell.
Qed.

End Cells.

Arguments col_width_covers_header {value}.
Arguments col_width_covers_sample {value}.
Arguments render_row_length {value}.

(** X17: all row lines of a batch have the same length, whatever the
    values, also in rows after the twentieth; when no column name is
    longer than thirty characters the header line and the line of dashes
    have that length too. *)
Theorem rows_are_aligned {value : Type} (str : value -> string)
    (first : Row value) (rest : list (Row value)) :
  (forall row,
      String.length (render_row str (first :: rest) (keys first) row)
      = line_width str (first :: rest) (keys first))
  /\ ((forall col, In col (keys first) -> String.length col <= 30) ->
       String.length (render_header str (first :: rest) (keys first))
       = line_width str (first :: rest) (keys first)
       /\ nth_error (format_batch str (first :: rest)) 1
          = Some (repeat_char "-"%char
                    (line_width str (first :: rest) (keys first)))).
Proof.
  split; [intros row; apply render_row_length|].
  intros Hshort.
  assert (E : String.length (render_header str (first :: rest) (keys first))
              = line_width str (first :: rest) (keys first)).
  { unfold render_header, line_width.
    rewrite length_join, length_map, map_map. f_equal. f_equal.
    apply map_ext_in. intros col Hcol. rewrite length_ljust.
    pose proof (col_width_covers_header str (first :: rest) col
                  (Hshort col Hcol)). lia. }
  split; [exact E|]. cbn [format_batch app nth_error]. now rewrite E.
Qed.

(** The two batches [[{a: x, b: 1}], []]: header, dashes and row of the
    first have five characters. *)
Lemma rows_are_aligned_witness :
  String.length (render_row (fun v : string => v)
                   [[("a", "x"); ("b", "1")]] ["a"; "b"]
                   [("a", "x"); ("b", "1")]) = 5
  /\ String.length (render_header (fun v : string => v)
                      [[("a", "x"); ("b", "1")]] ["a"; "b"]) = 5.
Proof.
  destruct (rows_are_aligned (fun v : string => v)
              [("a", "x"); ("b", "1")] []) as (Hrow & Hhead).
  split.
  - exact (eq_trans (Hrow _) eq_refl).
  - refine (eq_trans (proj1 (Hhead _)) eq_refl).
    simpl. intros col [<- | [<- | []]]; simpl; lia.
Defined.

(** X18: a value of at most thirty characters in one of the first twenty
    rows is never cut: its cell is the value followed by padding. *)
Theorem sampled_values_are_not_cut {value : Type} (str : value -> string)
    (results : list (Row value)) (row : Row value) (col : string) :
  In row (firstn 20 results) ->
  String.length (cell str row col) <= 30 ->
  render_cell str results row col
  = cell str row col
    +++ repeat_char " "%char
          (col_width str results col - String.length (cell str row col)).
Proof.
  intros Hin Hlen. unfold render_cell.
  rewrite take_all by now apply col_width_covers_sample.
  reflexivity.
Qed.

(** The first row of the ragged batch, column [b]. *)
Lemma sampled_values_are_not_cut_witness :
  render_cell (fun v : string => v) ragged_batch
    [("a", "x"); ("b", "12345")] "b" = "12345".
Proof.
  refine (eq_trans (sampled_values_are_not_cut (fun v : string => v)
                      ragged_batch [("a", "x"); ("b", "12345")] "b" _ _)
                   eq_refl).
  - simpl. auto.
  - simpl. lia.
Defined.

(** X19: a row that lacks a column is rendered with a blank cell of the
    column's width there. *)
Theorem missing_key_renders_blank {value : Type} (str : value -> string)
    (results : list (Row value)) (row : Row value) (col : string) :
  get col row = None ->
  render_cell str results row col
  = repeat_char " "%char (col_width str results col).
Proof.
  intros Hnone. unfold render_cell, cell. rewrite Hnone.
  assert (E : take (col_width str results col) "" = "")
    by now destruct (col_width str results col).
  rewrite E. unfold ljust. simpl. now rewrite Nat.sub_0_r.
Qed.

(** The second row of the ragged batch has no [b]. *)
Lemma missing_key_renders_blank_witness :
  render_cell (fun v : string => v) ragged_batch [("a", "yy")] "b" = "     "
  /\ render_row (fun v : string => v) ragged_batch ["a"; "b"] [("a", "yy")]
     = "yy |      ".
Proof.
  split; [|reflexivity].
  exact (eq_trans (missing_key_renders_blank (fun v : string => v)
                     ragged_batch [("a", "yy")] "b" eq_refl) eq_refl).
Defined.

End RenderingFacts.


(** ** Statement splitting, raw SQL and multi-query execution *)

Module SqlFacts.

Import Examples RelationshipFacts.

Lemma chars_concat (a b : string) : chars (a +++ b) = chars a ++ chars b.
Proof.
  induction a as [|c a IH]; simpl; [reflexivity|].
  unfold chars in *. simpl. now rewrite IH.
Qed.

Lemma chars_rev (s : string) (x : ascii) :
  In x (chars (rev_string s)) <-> In x (chars s).
Proof.
  induction s as [|c s IH]; simpl; [tauto|].
  rewrite chars_concat, in_app_iff, IH. unfold chars. simpl. tauto.
Qed.

Lemma chars_lstrip (s : string) (x : ascii) :
  In x (chars (lstrip s)) -> In x (chars s).
Proof.
  induction s as [|c s IH]; simpl; [tauto|].
  destruct (is_space c); [|tauto].
  intros H. right. now apply IH.
Qed.

Lemma chars_strip (s : string) (x : ascii) :
  In x (chars (strip s)) -> In x (chars s).
Proof.
  unfold strip, rstrip. intros H.
  now apply chars_rev, chars_lstrip, chars_rev, chars_lstrip in H.
Qed.

Lemma lstrip_idempotent (s : string) : lstrip (lstrip s) = lstrip s.
Proof.
  induction s as [|c s IH]; simpl; [reflexivity|].
  destruct (is_space c) eqn:E; [exact IH|]. simpl. now rewrite E.
Qed.

Lemma lstrip_shorter (s : string) :
  String.length (lstrip s) <= String.length s.
Proof.
  induction s as [|c s IH]; simpl; [lia|].
  destruct (is_space c); simpl; lia.
Qed.

Lemma lstrip_snoc (w : string) (c : ascii) :
  is_space c = false ->
  lstrip (w +++ String c "") = lstrip w +++ String c "".
Proof.
  intros Hc. induction w as [|d w IH]; simpl.
  - now rewrite Hc.
  - destruct (is_space d); [exact IH | reflexivity].
Qed.

Lemma rstrip_cons (c : ascii) (t : string) :
  is_space c = false -> rstrip (String c t) = String c (rstrip t).
Proof.
  intros Hc. unfold rstrip. cbn [rev_string].
  rewrite lstrip_snoc by exact Hc.
  now rewrite rev_string_concat.
Qed.

Lemma rstrip_idempotent (s : string) : rstrip (rstrip s) = rstrip s.
Proof.
  unfold rstrip. now rewrite rev_string_involutive, lstrip_idempotent.
Qed.

Lemma lstrip_rstrip (t : string) :
  lstrip t = t -> lstrip (rstrip t) = rstrip t.
Proof.
  destruct t as [|c t]; [reflexivity|]. simpl.
  destruct (is_space c) eqn:E.
  - intros H. apply (f_equal String.length) in H.
    pose proof (lstrip_shorter t). simpl in H. lia.
  - intros _. rewrite rstrip_cons by exact E. simpl. now rewrite E.
Qed.

Lemma strip_fixed (s : string) :
  lstrip (strip s) = strip s /\ rstrip (strip s) = strip s.
Proof.
  unfold strip. split.
  - apply lstrip_rstrip, lstrip_idempotent.
  - apply rstrip_idempotent.
Qed.

Lemma strip_idempotent (s : string) : strip (strip s) = strip s.
Proof.
  destruct (strip_fixed s) as [Hl Hr].
  unfold strip at 1. now rewrite Hl, Hr.
Qed.

Lemma strip_blank (s : string) :
  (forall c, In c (chars s) -> is_space c = true) -> strip s = "".
Proof.
  intros H. assert (E : lstrip s = "").
  { induction s as [|c s IH]; [reflexivity|]. simpl.
    rewrite (H c) by (left; reflexivity).
    apply IH. intros d Hd. apply H. now right. }
  unfold strip. now rewrite E.
Qed.

Lemma split_on_pieces (sep : ascii) (s piece : string) (x : ascii) :
  In piece (split_on sep s) -> In x (chars piece) ->
  In x (chars s) /\ x <> sep.
Proof.
  revert piece. induction s as [|c s IH]; simpl; intros piece Hp Hx.
  - destruct Hp as [<- | []]. contradiction.
  - destruct (Ascii.eqb c sep) eqn:E.
    + destruct Hp as [<- | Hp]; [contradiction|].
      destruct (IH piece Hp Hx). auto.
    + apply Ascii.eqb_neq in E.
      destruct (split_on sep s) as [|p ps].
      * destruct Hp as [<- | []]. destruct Hx as [<- | []]. auto.
      * destruct Hp as [<- | Hp].
        -- destruct Hx as [<- | Hx]; [auto|].
           destruct (IH p (or_introl eq_refl) Hx). auto.
        -- destruct (IH piece (or_intror Hp) Hx). auto.
Qed.

Lemma split_on_without_separator (sep : ascii) (s : string) :
  ~ In sep (chars s) -> split_on sep s = [s].
Proof.
  induction s as [|c s IH]; simpl; intros H; [reflexivity|].
  destruct (Ascii.eqb c sep) eqn:E.
  - apply Ascii.eqb_eq in E. elim H. now left.
  - rewrite IH; [reflexivity|]. intros Hin. apply H. now right.
Qed.

(** X20: every statement obtained from splitting is non-empty, has no
    leading or trailing whitespace and contains no semicolon; a text
    without semicolon that is not blank is one statement, its stripped
    self. *)
Theorem split_statements_are_clean (sql : string) :
  (forall stmt, In stmt (split_statements sql) ->
     stmt <> "" /\ strip stmt = stmt /\ ~ In ";"%char (chars stmt))
  /\ (~ In ";"%char (chars sql) -> strip sql <> "" ->
       split_statements sql = [strip sql]).
Proof.
  unfold split_statements. split.
  - intros stmt H. apply in_map_iff in H. destruct H as (piece & <- & Hp).
    apply filter_In in Hp. destruct Hp as [Hp Hne].
    apply negb_true_iff, String.eqb_neq in Hne.
    split; [exact Hne|]. split; [apply strip_idempotent|].
    intros Hsemi. apply chars_strip in Hsemi.
    destruct (split_on_pieces _ _ _ _ Hp Hsemi) as [_ Hx]. now apply Hx.
  - intros Hno Hne. rewrite split_on_without_separator by exact Hno.
    simpl. apply String.eqb_neq in Hne. now rewrite Hne.
Qed.

(** Two statements between stray semicolons and blanks, and a text
    without semicolon. *)
Lemma split_statements_are_clean_witness :
  split_statements " SELECT 1 ;; SELECT 2; " = ["SELECT 1"; "SELECT 2"]
  /\ ("SELECT 2" <> "" /\ strip "SELECT 2" = "SELECT 2"
      /\ ~ In ";"%char (chars "SELECT 2"))
  /\ split_statements "  SELECT 3 " = ["SELECT 3"].
Proof.
  split; [reflexivity|]. split.
  - apply (proj1 (split_statements_are_clean " SELECT 1 ;; SELECT 2; ")).
    simpl. auto.
  - refine (eq_trans (proj2 (split_statements_are_clean "  SELECT 3 ") _ _)
              eq_refl).
    + simpl. intuition discriminate.
    + discriminate.
Defined.

Section Driver.

Variable value : Type.
Variable str : value -> string.
Variable DB : Type.
Variable connect : DB -> option string.
Variable execute : DB -> string -> DB * (list (Row value) + string).
Variable commit : DB -> DB.
Variable rollback : DB -> DB.
Variable get_table_names : DB -> list string.

Lemma run_statements_app (db : DB) (before rest : list string)
    (acc : list (list (Row value))) :
  run_statements execute db (before ++ rest) acc =
  match run_statements execute db before acc with
  | (db1, inl results) => run_statements execute db1 rest results
  | (db1, inr e) => (db1, inr e)
  end.
Proof.
  revert db acc. induction before as [|stmt before IH]; intros db acc; simpl.
  - reflexivity.
  - destruct (execute db stmt) as [db' [results | e]]; [apply IH | reflexivity].
Qed.

Lemma run_statements_count (db db' : DB) (statements : list string)
    (acc results : list (list (Row value))) :
  run_statements execute db statements acc = (db', inl results) ->
  List.length results = List.length acc + List.length statements.
Proof.
  revert db acc. induction statements as [|stmt rest IH]; intros db acc; simpl.
  - intros [= _ <-]. lia.
  - destruct (execute db stmt) as [db1 [rows | e]]; [|discriminate].
    intros H. apply IH in H. rewrite length_app in H. simpl in H. lia.
Qed.

Lemma sql_error_message_shape (db : DB) (e : string) :
  exists hint,
    sql_error_message get_table_names db e = "SQL Error: " +++ e +++ hint.
Proof.
  unfold sql_error_message. cbv zeta.
  destruct (contains "no such table" (lower e)).
  - eexists. apply concat_assoc.
  - destruct (contains "no such column" (lower e)).
    + eexists. apply concat_assoc.
    + exists "". now rewrite concat_empty_r.
Qed.

Lemma blank_sql_has_no_statement (sql : string) :
  (forall c, In c (chars sql) -> is_space c = true \/ c = ";"%char) ->
  split_statements sql = [].
Proof.
  intros H. unfold split_statements.
  rewrite Suggest.filter_none; [reflexivity|].
  intros piece Hp. apply negb_false_iff, String.eqb_eq, strip_blank.
  intros c Hc. destruct (split_on_pieces _ _ _ _ Hp Hc) as [Hin Hne].
  destruct (H c Hin) as [Hs | ->]; [exact Hs | now elim Hne].
Qed.

Lemma all_text_app (a b : list (Output value)) (la lb : list string) :
  all_text a = Some la -> all_text b = Some lb ->
  all_text (a ++ b) = Some (la ++ lb).
Proof.
  revert la. induction a as [|o a IH]; simpl; intros la Ha Hb.
  - injection Ha as <-. exact Hb.
  - destruct o; try discriminate.
    destruct (all_text a) as [l|]; [|discriminate].
    injection Ha as <-. now rewrite (IH l eq_refl Hb).
Qed.

Lemma raw_table_is_text (db : DB) (sql : string) :
  exists t,
    snd (execute_raw_sql str connect execute commit rollback get_table_names
           db sql FormatTable) = Text t.
Proof.
  unfold execute_raw_sql. destruct (connect db); [now eexists|].
  destruct (run_statements execute db (split_statements sql) [])
    as [db' [results | e]]; now eexists.
Qed.

Lemma multi_loop_table_text (queries : list string) (db : DB) (i total : nat)
    (acc : list (Output value)) (l : list string) :
  all_text acc = Some l ->
  exists l',
    all_text (snd (multi_loop str connect execute commit rollback
                     get_table_names db i total queries FormatTable acc))
    = Some l'.
Proof.
  revert db i acc l. induction queries as [|q rest IH]; intros db i acc l Hacc.
  - now exists l.
  - cbn [multi_loop]. cbv zeta. destruct (String.eqb (strip q) "").
    + now apply (IH db (S i) acc l).
    + destruct (raw_table_is_text db (strip q)) as (t & Ht).
      destruct (execute_raw_sql _ _ _ _ _ _ db (strip q) FormatTable)
        as [db' result].
      simpl in Ht. subst result.
      destruct (i <? total - 1)%nat.
      * eapply IH. eapply all_text_app; [exact Hacc | reflexivity].
      * eapply IH. eapply all_text_app; [exact Hacc | reflexivity].
Qed.

Lemma multi_loop_blank (queries : list string) (db : DB) (i total : nat)
    (fmt : Format) (acc : list (Output value)) :
  (forall q, In q queries -> strip q = "") ->
  multi_loop str connect execute commit rollback get_table_names
    db i total queries fmt acc = (db, acc).
Proof.
  revert i. induction queries as [|q rest IH]; intros i H; [reflexivity|].
  cbn [multi_loop]. cbv zeta.
  rewrite (H q (or_introl eq_refl)). cbn [String.eqb].
  apply IH. intros x Hx. apply H. now right.
Qed.

Lemma multi_loop_app (before rest : list string) (db : DB) (i total : nat)
    (fmt : Format) (acc : list (Output value)) :
  multi_loop str connect execute commit rollback get_table_names
    db i total (before ++ rest) fmt acc
  = multi_loop str connect execute commit rollback get_table_names
      (fst (multi_loop str connect execute commit rollback get_table_names
              db i total before fmt acc))
      (i + List.length before) total rest fmt
      (snd (multi_loop str connect execute commit rollback get_table_names
              db i total before fmt acc)).
Proof.
  revert db i acc. induction before as [|q before IH]; intros db i acc.
  - simpl. now rewrite Nat.add_0_r.
  - cbn [app multi_loop List.length]. cbv zeta.
    rewrite (Nat.add_succ_r i (List.length before)).
    destruct (String.eqb (strip q) ""); [exact (IH db (S i) acc)|].
    destruct (execute_raw_sql _ _ _ _ _ _ db (strip q) fmt) as [db' result].
    exact (IH db' (S i) _).
Qed.


(** X22: a text made of whitespace and semicolons only runs no
    statement: the connection is committed as it is and the result is the
    empty text, or no result list in the other formats. *)
Theorem blank_sql_runs_nothing (db : DB) (sql : string) :
  connect db = None ->
  (forall c, In c (chars sql) -> is_space c = true \/ c = ";"%char) ->
  execute_raw_sql str connect execute commit rollback get_table_names
    db sql FormatTable = (commit db, Text "")
  /\ execute_raw_sql str connect execute commit rollback get_table_names
       db sql FormatJson = (commit db, JsonOf [])
  /\ execute_raw_sql str connect execute commit rollback get_table_names
       db sql FormatOther = (commit db, Results []).
Proof.
  intros Hc Hblank. unfold execute_raw_sql.
  rewrite Hc, (blank_sql_has_no_statement sql Hblank).
  repeat split; reflexivity.
Qed.

(** X23: when result lists are returned, there is one list per statement
    of the text, in the order of the statements. *)
Theorem one_batch_per_statement (db db' : DB) (sql : string)
    (results : list (list (Row value))) :
  execute_raw_sql str connect execute commit rollback get_table_names
    db sql FormatOther = (db', Results results) ->
  List.length results = List.length (split_statements sql)
  /\ exists db1,
       run_statements execute db (split_statements sql) [] = (db1, inl results)
       /\ db' = commit db1.
Proof.
  unfold execute_raw_sql. intros H.
  destruct (connect db); [discriminate|].
  destruct (run_statements execute db (split_statements sql) [])
    as [db1 [rs | e]] eqn:Hrun; [|discriminate].
  injection H as <- <-. split.
  - now apply run_statements_count in Hrun.
  - now exists db1.
Qed.

(** X24: in table mode the multi-query output is always a text: every
    piece that is joined is a string, whether its query succeeded or
    raised. *)
Theorem table_mode_returns_text (db : DB) (queries : list string) :
  exists t,
    snd (execute_multi_query str connect execute commit rollback
           get_table_names db queries FormatTable) = MultiText t.
Proof.
  unfold execute_multi_query.
  destruct (multi_loop_table_text queries db 0 (List.length queries) [] []
              eq_refl) as (l & Hl).
  destruct (multi_loop _ _ _ _ _ _ db 0 _ queries FormatTable [])
    as [db' outputs].
  simpl in *. rewrite Hl. now eexists.
Qed.

(** X25: queries that are blank after stripping are skipped: a list of
    blank queries runs nothing, leaves the database as it is and gives the
    empty text, or no output in JSON mode. *)
Theorem blank_queries_run_nothing (db : DB) (queries : list string)
    (fmt : Format) :
  (forall q, In q queries -> strip q = "") ->
  execute_multi_query str connect execute commit rollback get_table_names
    db queries fmt
  = (db, match fmt with
         | FormatJson => MultiJson []
         | _ => MultiText ""
         end).
Proof.
  intros Hblank. unfold execute_multi_query.
  rewrite (multi_loop_blank queries db 0 _ fmt [] Hblank).
  destruct fmt; reflexivity.
Qed.

(** X26: in table mode a last query that is not blank closes the output:
    its heading carries its position in the list, then come the line of
    forty dashes and its result, and no separator follows. *)
Theorem last_query_closes_the_output (db : DB) (earlier : list string)
    (q : string) :
  strip q <> "" ->
  exists db1 db2 pieces t,
    multi_loop str connect execute commit rollback get_table_names
      db 0 (List.length (earlier ++ [q])) earlier FormatTable []
      = (db1, map Text pieces)
    /\ execute_raw_sql str connect execute commit rollback get_table_names
         db1 (strip q) FormatTable = (db2, Text t)
    /\ execute_multi_query str connect execute commit rollback get_table_names
         db (earlier ++ [q]) FormatTable
       = (db2,
          MultiText
            (join nl
               (pieces
                ++ ["Query " +++ str_of_nat (List.length earlier + 1)
                    +++ ": " +++ strip q;
                    repeat_char "-"%char 40;
                    t]))).
Proof.
  intros Hq. unfold execute_multi_query. rewrite multi_loop_app.
  destruct (multi_loop_table_text earlier db 0
              (List.length (earlier ++ [q])) [] [] eq_refl) as (pieces & Hp).
  destruct (multi_loop _ _ _ _ _ _ db 0 _ earlier FormatTable [])
    as [db1 outputs].
  cbn [fst snd] in *.
  assert (Hout : outputs = map Text pieces).
  { clear - Hp. revert pieces Hp.
    induction outputs as [|o outputs IH]; simpl; intros pieces Hp.
    - now injection Hp as <-.
    - destruct o; try discriminate.
      destruct (all_text outputs) as [l|]; [|discriminate].
      injection Hp as <-. simpl. f_equal. now apply IH. }
  destruct (raw_table_is_text db1 (strip q)) as (t & Ht).
  destruct (execute_raw_sql _ _ _ _ _ _ db1 (strip q) FormatTable)
    as [db2 result] eqn:Hraw.
  simpl in Ht. subst result.
  exists db1, db2, pieces, t. split; [now rewrite Hout|]. split; [exact Hraw|].
  cbn [multi_loop]. cbv zeta. apply String.eqb_neq in Hq. rewrite Hq, Hraw.
  rewrite length_app. cbn [List.length].
  replace (0 + List.length earlier <? List.length earlier + 1 - 1)%nat
    with false by (symmetry; apply Nat.ltb_ge; lia).
  cbn [app]. rewrite Nat.add_0_l.
  erewrite all_text_app; [reflexivity | exact Hp | reflexivity].
Qed.

End Driver.


(** Blanks and semicolons only. *)
Lemma blank_sql_runs_nothing_witness :
  toy_raw_sql (3, 0) " ; ;; " FormatTable = ((3, 0), Text "")
  /\ toy_raw_sql (3, 0) " ; ;; " FormatJson = ((3, 0), JsonOf [])
  /\ toy_raw_sql (3, 0) " ; ;; " FormatOther = ((3, 0), Results []).
Proof.
  apply (blank_sql_runs_nothing _ (fun v : string => v) _
              toy_connect toy_execute
           toy_commit toy_rollback toy_tables (3, 0) " ; ;; " eq_refl).
  simpl. intros c H.
  repeat (destruct H as [<- | H]; [auto|]). contradiction.
Defined.

(** Two statements, two result lists. *)
Lemma one_batch_per_statement_witness :
  List.length [[[("statement", "select 1")]]; [[("statement", "select 2")]]]
  = List.length (split_statements "select 1; select 2").
Proof.
  exact (proj1 (one_batch_per_statement _ (fun v : string => v) _
              toy_connect
                  toy_execute toy_commit toy_rollback toy_tables
                  (0, 0) (2, 0) "select 1; select 2" _ eq_refl)).
Defined.

(** A list of blank queries. *)
Lemma blank_queries_run_nothing_witness :
  toy_multi_query (3, 0) ["  "; ""] FormatTable = ((3, 0), MultiText "")
  /\ toy_multi_query (3, 0) ["  "; ""] FormatJson = ((3, 0), MultiJson []).
Proof.
  split;
    apply (blank_queries_run_nothing _ (fun v : string => v) _
              toy_connect
             toy_execute toy_commit toy_rollback toy_tables);
    simpl; intros q [<- | [<- | []]]; reflexivity.
Defined.

(** Two queries: the second is numbered 2 and ends the text. *)
Lemma last_query_closes_the_output_witness :
  exists db1 db2 pieces t,
    multi_loop (fun v : string => v) toy_connect toy_execute toy_commit
      toy_rollback toy_tables (0, 0) 0 2 ["select 1"] FormatTable []
      = (db1, map Text pieces)
    /\ toy_raw_sql db1 "select 2" FormatTable = (db2, Text t)
    /\ toy_multi_query (0, 0) ["select 1"; "select 2"] FormatTable
       = (db2,
          MultiText
            (join nl (pieces ++ ["Query 2: select 2";
                                 repeat_char "-"%char 40; t]))).
Proof.
  apply (last_query_closes_the_output _ (fun v : string => v) _
              toy_connect
           toy_execute toy_commit toy_rollback toy_tables (0, 0)
           ["select 1"] "select 2").
  discriminate.
Defined.

End SqlFacts.
